(** * asyncx: task lifecycle records in front of a task queue

    A shallow embedding of the Go package [asyncx] (types.go, store.go, the
    Client, processor.go, migrations/001_create_tasks.sql) and the
    properties of its Store, Client and Processor.

    Conventions.
    - A Go [error] value is an [option error]: [None] is [nil].
    - A Go pointer that may be nil ([*string], [*time.Time], [*sql.DB],
      [*TaskRecord]) is an [option].
    - Code that talks to the outside (the clock, the database handle, the
      queue client, the Store behind the interface, a task handler) is a
      state-passing function; the calls this package makes are recorded, in
      order, in a log next to the state. *)

From Stdlib Require Import ZArith Ascii String List Bool Lia.
From stdpp Require Import gmap strings pretty list fin_maps.

Open Scope string_scope.
Open Scope list_scope.

(** ** A state monad for effectful code *)

Definition State (W A : Type) : Type := W -> A * W.

#[global] Instance State_ret {W : Type} : MRet (State W) :=
  fun A a w => (a, w).

#[global] Instance State_bind {W : Type} : MBind (State W) :=
  fun A B k m w => let (a, w') := m w in k a w'.

(** ** Basic data: errors, time, contexts (Go standard library) *)

(** An [error] value.  [errors_New] is what [errors.New] and [fmt.Errorf]
    build inside this package; [foreign] stands for an error value produced
    by a collaborator (database driver, queue client, [encoding/json], a task
    handler), identified by a code and carrying its message. *)
Inductive error : Type :=
  | errors_New (msg : string)
  | foreign (code : nat) (msg : string).

(** [err.Error()] *)
Definition Error (e : error) : string :=
  match e with
  | errors_New msg => msg
  | foreign _ msg => msg
  end.

(** [time.Time]: an instant (nanoseconds) and the location it is shown in. *)
Inductive Location : Type := UTCLoc | LocalLoc | FixedZone (offset : Z).

Record Time : Type := mkTime { instant : Z; location : Location }.

(** [t.UTC()]: the same instant, location set to UTC. *)
Definition UTC (t : Time) : Time := mkTime (instant t) UTCLoc.

(** [t.Equal(u)]: the same instant, whatever the locations. *)
Definition Equal (t u : Time) : bool := (instant t =? instant u)%Z.

(** [time.Time{}] *)
Definition zeroTime : Time := mkTime 0 UTCLoc.

(** [context.Context], as far as this package looks into it: the task id the
    queue library stores in the context handed to a handler. *)
Record Context : Type := mkContext { ctx_task_id : option string }.

(** ** types.go *)

Definition Status : Type := string.

Definition StatusCreated : Status := "created".
Definition StatusInProgress : Status := "in_progress".
Definition StatusCompleted : Status := "completed".
Definition StatusFailed : Status := "failed".

Record TaskRecord : Type := mkTaskRecord {
  ID : string;
  Type_ : string;
  Queue : string;
  PayloadJSON : string;
  Status_ : Status;
  ErrorMsg : option string;
  ResultJSON : option string;
  CreatedAt : Time;
  EnqueuedAt : Time;
  StartedAt : option Time;
  FinishedAt : option Time
}.

(** [TaskRecord{}] *)
Definition emptyTaskRecord : TaskRecord :=
  mkTaskRecord "" "" "" "" "" None None zeroTime zeroTime None None.

(** ** store.go: the Store interface *)

(** An implementation of [Store] whose backing state lives in [W]. *)
Record Store (W : Type) : Type := mkStore {
  InsertCreated : Context -> TaskRecord -> State W (option error);
  MarkEnqueued : Context -> string -> string -> Time -> State W (option error);
  MarkStarted : Context -> string -> Time -> State W (option error);
  MarkCompleted : Context -> string -> option string -> Time -> State W (option error);
  MarkFailed : Context -> string -> string -> Time -> State W (option error);
  GetByID : Context -> string -> State W (option TaskRecord * option error)
}.

Arguments InsertCreated {W}.
Arguments MarkEnqueued {W}.
Arguments MarkStarted {W}.
Arguments MarkCompleted {W}.
Arguments MarkFailed {W}.
Arguments GetByID {W}.


(** ** database/sql, as seen from store.go *)

Module sql.

(** The two placeholder conventions of the statements in store.go. *)
Inductive Placeholder : Type := Positional | Numbered.

(** The six statements of store.go, without their placeholder style. *)
Inductive Query : Type :=
  | InsertTask
  | UpdateEnqueued
  | UpdateStarted
  | UpdateCompleted
  | UpdateFailed
  | SelectByID.

(** A statement argument; [VNull] is a nil [*string]. *)
Inductive Value : Type :=
  | VString (s : string)
  | VTime (t : Time)
  | VNull.

(** A statement as sent: which of the six, in which placeholder style (the
    text is [SQLStore.text]), and its arguments in order. *)
Record Stmt : Type := mkStmt {
  query : Query;
  style : Placeholder;
  args : list Value
}.

Record NullString : Type := mkNullString { String_ : string; ValidS : bool }.
Record NullTime : Type := mkNullTime { Time_ : Time; ValidT : bool }.

(** The eleven destinations of [row.Scan] in [GetByID], in column order. *)
Record Scanned : Type := mkScanned {
  s_id : string;
  s_type : string;
  s_queue : string;
  s_payload_json : string;
  s_status : string;
  s_error_msg : NullString;
  s_result_json : NullString;
  s_created_at : Time;
  s_enqueued_at : NullTime;
  s_started_at : NullTime;
  s_finished_at : NullTime
}.

(** A database handle ([*sql.DB], non-nil) over a backend state [D]:
    [ExecContext] gives the error of the call (the [sql.Result] is dropped
    by every caller); [QueryRowScan] is [QueryRowContext] followed by
    [Scan] on the row, which is where a query error surfaces. *)
Record DB (D : Type) : Type := mkDB {
  ExecContext : Context -> Stmt -> State D (option error);
  QueryRowScan : Context -> Stmt -> State D (Scanned + error)
}.

Arguments ExecContext {D}.
Arguments QueryRowScan {D}.

End sql.

Import sql.

(** ** store.go: SQLStore *)

(** What a call of this package runs against: the process clock (the number
    of [time.Now()] readings taken so far), the state behind the database
    handle, and the log of the statements sent through the handle. *)
Record Env (D : Type) : Type := mkEnv {
  ticks : nat;
  backend : D;
  sent : list Stmt
}.

Arguments mkEnv {D}.
Arguments ticks {D}.
Arguments backend {D}.
Arguments sent {D}.

Module SQLStore.

(** The text store.go sends for each statement and placeholder style (line
    breaks and indentation inside the two INSERT texts aside). *)
Definition text (q : Query) (p : Placeholder) : string :=
  match q, p with
  | InsertTask, Positional =>
      "INSERT INTO asyncx_tasks (id, type, queue, payload_json, status, created_at) VALUES (?, ?, ?, ?, ?, ?)"
  | InsertTask, Numbered =>
      "INSERT INTO asyncx_tasks (id, type, queue, payload_json, status, created_at) VALUES ($1, $2, $3, $4, $5, $6)"
  | UpdateEnqueued, Positional =>
      "UPDATE asyncx_tasks SET status = ?, queue = ?, enqueued_at = ?, updated_at = CURRENT_TIMESTAMP WHERE id = ?"
  | UpdateEnqueued, Numbered =>
      "UPDATE asyncx_tasks SET status = $1, queue = $2, enqueued_at = $3, updated_at = NOW() WHERE id = $4"
  | UpdateStarted, Positional =>
      "UPDATE asyncx_tasks SET status = ?, started_at = ?, updated_at = CURRENT_TIMESTAMP WHERE id = ?"
  | UpdateStarted, Numbered =>
      "UPDATE asyncx_tasks SET status = $1, started_at = $2, updated_at = NOW() WHERE id = $3"
  | UpdateCompleted, Positional =>
      "UPDATE asyncx_tasks SET status = ?, result_json = ?, finished_at = ?, updated_at = CURRENT_TIMESTAMP WHERE id = ?"
  | UpdateCompleted, Numbered =>
      "UPDATE asyncx_tasks SET status = $1, result_json = $2, finished_at = $3, updated_at = NOW() WHERE id = $4"
  | UpdateFailed, Positional =>
      "UPDATE asyncx_tasks SET status = ?, error_msg = ?, finished_at = ?, updated_at = CURRENT_TIMESTAMP WHERE id = ?"
  | UpdateFailed, Numbered =>
      "UPDATE asyncx_tasks SET status = $1, error_msg = $2, finished_at = $3, updated_at = NOW() WHERE id = $4"
  | SelectByID, Positional =>
      "SELECT id, type, queue, payload_json, status, error_msg, result_json, created_at, enqueued_at, started_at, finished_at FROM asyncx_tasks WHERE id = ?"
  | SelectByID, Numbered =>
      "SELECT id, type, queue, payload_json, status, error_msg, result_json, created_at, enqueued_at, started_at, finished_at FROM asyncx_tasks WHERE id = $1"
  end.

(** The number of arguments each statement is sent with. *)
Definition arity (q : Query) : nat :=
  match q with
  | InsertTask => 6
  | UpdateEnqueued => 4
  | UpdateStarted => 3
  | UpdateCompleted => 4
  | UpdateFailed => 4
  | SelectByID => 1
  end.

Fixpoint occurrences (c : ascii) (s : string) : nat :=
  match s with
  | EmptyString => 0
  | String c' s' => (if Ascii.eqb c c' then 1 else 0) + occurrences c s'
  end.

Section WithBackend.

(** The backend state and the readings of the process clock. *)
Context {D : Type}.
Variable clock : nat -> Time.

(** [time.Now()] *)
Definition time_Now : State (Env D) Time :=
  fun w => (clock (ticks w), mkEnv (S (ticks w)) (backend w) (sent w)).

(** [s.db.ExecContext(ctx, query, args...)] *)
Definition db_ExecContext (h : DB D) (ctx : Context) (st : Stmt)
  : State (Env D) (option error) :=
  fun w => let (e, d) := ExecContext h ctx st (backend w) in
           (e, mkEnv (ticks w) d (sent w ++ [st])).

(** [s.db.QueryRowContext(ctx, query, args...).Scan(dest...)] *)
Definition db_QueryRowScan (h : DB D) (ctx : Context) (st : Stmt)
  : State (Env D) (Scanned + error) :=
  fun w => let (r, d) := QueryRowScan h ctx st (backend w) in
           (r, mkEnv (ticks w) d (sent w ++ [st])).

Record SQLStore : Type := mkSQLStore { db : option (DB D) }.

Definition NewSQLStore (h : option (DB D)) : SQLStore := mkSQLStore h.

Definition InsertCreated (s : SQLStore) (ctx : Context) (rec : TaskRecord)
  : State (Env D) (option error) :=
  match db s with
  | None => mret (Some (errors_New "nil db"))
  | Some h =>
      now ← time_Now;
      err ← db_ExecContext h ctx
        (mkStmt InsertTask Positional
           [VString (ID rec); VString (Type_ rec); VString (Queue rec);
            VString (PayloadJSON rec); VString StatusCreated; VTime (UTC now)]);
      match err with
      | Some _ =>
          now2 ← time_Now;
          err2 ← db_ExecContext h ctx
            (mkStmt InsertTask Numbered
               [VString (ID rec); VString (Type_ rec); VString (Queue rec);
                VString (PayloadJSON rec); VString StatusCreated; VTime (UTC now2)]);
          mret err2
      | None => mret None
      end
  end.

Definition MarkEnqueued (s : SQLStore) (ctx : Context) (taskID queue : string)
    (enqueuedAt : Time) : State (Env D) (option error) :=
  match db s with
  | None => mret (Some (errors_New "nil db"))
  | Some h =>
      err ← db_ExecContext h ctx
        (mkStmt UpdateEnqueued Positional
           [VString StatusCreated; VString queue; VTime (UTC enqueuedAt); VString taskID]);
      match err with
      | Some _ =>
          err2 ← db_ExecContext h ctx
            (mkStmt UpdateEnqueued Numbered
               [VString StatusCreated; VString queue; VTime (UTC enqueuedAt); VString taskID]);
          mret err2
      | None => mret None
      end
  end.

Definition MarkStarted (s : SQLStore) (ctx : Context) (taskID : string)
    (startedAt : Time) : State (Env D) (option error) :=
  match db s with
  | None => mret (Some (errors_New "nil db"))
  | Some h =>
      err ← db_ExecContext h ctx
        (mkStmt UpdateStarted Positional
           [VString StatusInProgress; VTime (UTC startedAt); VString taskID]);
      match err with
      | Some _ =>
          err2 ← db_ExecContext h ctx
            (mkStmt UpdateStarted Numbered
               [VString StatusInProgress; VTime (UTC startedAt); VString taskID]);
          mret err2
      | None => mret None
      end
  end.

(** A [*string] argument: nil is sent as NULL. *)
Definition string_ptr (p : option string) : Value :=
  match p with
  | Some v => VString v
  | None => VNull
  end.

Definition MarkCompleted (s : SQLStore) (ctx : Context) (taskID : string)
    (resultJSON : option string) (finishedAt : Time) : State (Env D) (option error) :=
  match db s with
  | None => mret (Some (errors_New "nil db"))
  | Some h =>
      err ← db_ExecContext h ctx
        (mkStmt UpdateCompleted Positional
           [VString StatusCompleted; string_ptr resultJSON; VTime (UTC finishedAt);
            VString taskID]);
      match err with
      | Some _ =>
          err2 ← db_ExecContext h ctx
            (mkStmt UpdateCompleted Numbered
               [VString StatusCompleted; string_ptr resultJSON; VTime (UTC finishedAt);
                VString taskID]);
          mret err2
      | None => mret None
      end
  end.

Definition MarkFailed (s : SQLStore) (ctx : Context) (taskID errorMsg : string)
    (finishedAt : Time) : State (Env D) (option error) :=
  match db s with
  | None => mret (Some (errors_New "nil db"))
  | Some h =>
      err ← db_ExecContext h ctx
        (mkStmt UpdateFailed Positional
           [VString StatusFailed; VString errorMsg; VTime (UTC finishedAt);
            VString taskID]);
      match err with
      | Some _ =>
          err2 ← db_ExecContext h ctx
            (mkStmt UpdateFailed Numbered
               [VString StatusFailed; VString errorMsg; VTime (UTC finishedAt);
                VString taskID]);
          mret err2
      | None => mret None
      end
  end.

(** The tail of [GetByID], after a [Scan] that succeeded: the scanned
    destinations are copied into the record, the nullable ones only when
    valid. *)
Definition fill (c : Scanned) : TaskRecord :=
  let rec := mkTaskRecord (s_id c) (s_type c) (s_queue c) (s_payload_json c)
               "" None None (s_created_at c) zeroTime None None in
  let rec := mkTaskRecord (ID rec) (Type_ rec) (Queue rec) (PayloadJSON rec)
               (s_status c) (ErrorMsg rec) (ResultJSON rec) (CreatedAt rec)
               (EnqueuedAt rec) (StartedAt rec) (FinishedAt rec) in
  let errorMsg := if ValidS (s_error_msg c) then Some (String_ (s_error_msg c)) else ErrorMsg rec in
  let resultJSON := if ValidS (s_result_json c) then Some (String_ (s_result_json c)) else ResultJSON rec in
  let startedAt := if ValidT (s_started_at c) then Some (Time_ (s_started_at c)) else StartedAt rec in
  let finishedAt := if ValidT (s_finished_at c) then Some (Time_ (s_finished_at c)) else FinishedAt rec in
  let enqueuedAt := if ValidT (s_enqueued_at c) then Time_ (s_enqueued_at c) else EnqueuedAt rec in
  mkTaskRecord (ID rec) (Type_ rec) (Queue rec) (PayloadJSON rec) (Status_ rec)
    errorMsg resultJSON (CreatedAt rec) enqueuedAt startedAt finishedAt.

Definition GetByID (s : SQLStore) (ctx : Context) (taskID : string)
  : State (Env D) (option TaskRecord * option error) :=
  match db s with
  | None => mret (None, Some (errors_New "nil db"))
  | Some h =>
      r ← db_QueryRowScan h ctx (mkStmt SelectByID Positional [VString taskID]);
      match r with
      | inr _ =>
          r2 ← db_QueryRowScan h ctx (mkStmt SelectByID Numbered [VString taskID]);
          match r2 with
          | inr err2 => mret (None, Some err2)
          | inl c => mret (Some (fill c), None)
          end
      | inl c => mret (Some (fill c), None)
      end
  end.

(** [*SQLStore] implements the [Store] interface. *)
Definition as_Store (s : SQLStore) : Store (Env D) :=
  mkStore (Env D) (InsertCreated s) (MarkEnqueued s) (MarkStarted s)
    (MarkCompleted s) (MarkFailed s) (GetByID s).

End WithBackend.
End SQLStore.

(** ** migrations/001_create_tasks.sql: the table behind the handle *)

(** A database holding the table [asyncx_tasks] of the migration, and the
    meaning, on that table, of the six statements store.go sends.  The
    engine itself is not part of the repository; what is modelled is what the
    statements and the schema fix: [id] is the primary key, an [INSERT] of an
    id that is present fails, an [UPDATE ... WHERE id = ...] rewrites the
    matching row if there is one and succeeds either way, a [SELECT] of an
    absent id makes [Scan] fail with [sql.ErrNoRows].  Strings and timestamps
    are stored and read back as they were sent. *)
Module Table.

(** Which placeholder styles the engine parses. *)
Inductive Dialect : Type := MySQL | Postgres | SQLite.

Definition accepts (d : Dialect) (p : Placeholder) : bool :=
  match d, p with
  | MySQL, Positional => true
  | MySQL, Numbered => false
  | Postgres, Positional => false
  | Postgres, Numbered => true
  | SQLite, _ => true
  end.

(** A row of [asyncx_tasks], without its key column [id]. *)
Record Row : Type := mkRow {
  type : string;
  queue : string;
  payload_json : string;
  status : string;
  error_msg : option string;
  result_json : option string;
  created_at : Time;
  updated_at : option Time;
  enqueued_at : option Time;
  started_at : option Time;
  finished_at : option Time
}.

Record Database : Type := mkDatabase {
  dialect : Dialect;
  reachable : bool;
  rows : gmap string Row;
  served : nat
}.

Definition ErrNoRows : error := errors_New "sql: no rows in result set".
Definition errUnreachable : error := foreign 1 "connection refused".
Definition errSyntax : error := foreign 2 "syntax error".
Definition errDuplicate : error := foreign 3 "duplicate key value violates unique constraint".
Definition errArguments : error := foreign 4 "wrong number or type of arguments".

Section WithEngineClock.

(** The readings of the database engine's own clock ([CURRENT_TIMESTAMP],
    [NOW()]), which only [updated_at] is set from. *)
Variable engine_clock : nat -> Time.

Definition with_rows (d : Database) (m : gmap string Row) : Database :=
  mkDatabase (dialect d) (reachable d) m (S (served d)).

(** The effect of an accepted data-changing statement. *)
Definition write (q : Query) (a : list Value) (d : Database)
  : option error * Database :=
  let now := engine_clock (served d) in
  match q, a with
  | InsertTask, [VString id; VString ty; VString qu; VString p; VString st; VTime c] =>
      match rows d !! id with
      | Some _ => (Some errDuplicate, d)
      | None =>
          (None, with_rows d
             (<[id := mkRow ty qu p st None None c None None None None]> (rows d)))
      end
  | UpdateEnqueued, [VString st; VString qu; VTime t; VString id] =>
      (None, with_rows d
         (alter (fun r => mkRow (type r) qu (payload_json r) st (error_msg r)
                            (result_json r) (created_at r) (Some now) (Some t)
                            (started_at r) (finished_at r)) id (rows d)))
  | UpdateStarted, [VString st; VTime t; VString id] =>
      (None, with_rows d
         (alter (fun r => mkRow (type r) (queue r) (payload_json r) st (error_msg r)
                            (result_json r) (created_at r) (Some now) (enqueued_at r)
                            (Some t) (finished_at r)) id (rows d)))
  | UpdateCompleted, [VString st; VString res; VTime t; VString id] =>
      (None, with_rows d
         (alter (fun r => mkRow (type r) (queue r) (payload_json r) st (error_msg r)
                            (Some res) (created_at r) (Some now) (enqueued_at r)
                            (started_at r) (Some t)) id (rows d)))
  | UpdateCompleted, [VString st; VNull; VTime t; VString id] =>
      (None, with_rows d
         (alter (fun r => mkRow (type r) (queue r) (payload_json r) st (error_msg r)
                            None (created_at r) (Some now) (enqueued_at r)
                            (started_at r) (Some t)) id (rows d)))
  | UpdateFailed, [VString st; VString msg; VTime t; VString id] =>
      (None, with_rows d
         (alter (fun r => mkRow (type r) (queue r) (payload_json r) st (Some msg)
                            (result_json r) (created_at r) (Some now) (enqueued_at r)
                            (started_at r) (Some t)) id (rows d)))
  | _, _ => (Some errArguments, d)
  end.

Definition exec (ctx : Context) (st : Stmt) : State Database (option error) :=
  fun d =>
    if negb (reachable d) then (Some errUnreachable, d)
    else if negb (accepts (dialect d) (style st)) then (Some errSyntax, d)
    else write (query st) (args st) d.

Definition null_string (o : option string) : NullString :=
  match o with
  | Some v => mkNullString v true
  | None => mkNullString "" false
  end.

Definition null_time (o : option Time) : NullTime :=
  match o with
  | Some v => mkNullTime v true
  | None => mkNullTime zeroTime false
  end.

(** [Scan] of the selected row into the eleven destinations. *)
Definition scan (id : string) (r : Row) : Scanned :=
  mkScanned id (type r) (queue r) (payload_json r) (status r)
    (null_string (error_msg r)) (null_string (result_json r)) (created_at r)
    (null_time (enqueued_at r)) (null_time (started_at r)) (null_time (finished_at r)).

Definition select (ctx : Context) (st : Stmt) : State Database (Scanned + error) :=
  fun d =>
    if negb (reachable d) then (inr errUnreachable, d)
    else if negb (accepts (dialect d) (style st)) then (inr errSyntax, d)
    else match query st, args st with
         | SelectByID, [VString id] =>
             match rows d !! id with
             | Some r => (inl (scan id r), d)
             | None => (inr ErrNoRows, d)
             end
         | _, _ => (inr errArguments, d)
         end.

(** The handle [sql.Open] gives on such a database. *)
Definition handle : DB Database := mkDB Database exec select.

Definition store : SQLStore.SQLStore := SQLStore.NewSQLStore (Some handle).

End WithEngineClock.

End Table.

(** ** github.com/hibiken/asynq, as seen from the Client and processor.go *)

Module asynq.

(** [asynq.Task], built by [asynq.NewTask(typename, payload)]. *)
Record Task : Type := NewTask { Type_ : string; Payload : string }.

(** [asynq.Option]: the submission options a caller can pass. *)
Inductive Option : Type :=
  | MaxRetry (n : Z)
  | Queue (name : string)
  | TaskID (id : string)
  | Timeout (nanoseconds : Z)
  | ProcessAt (t : Time).

(** [asynq.TaskInfo], the acknowledgement of a submission. *)
Record TaskInfo : Type := mkTaskInfo {
  ID : string;
  Queue_ : string;
  Type__ : string;
  Payload_ : string;
  MaxRetry_ : Z
}.

(** [*asynq.Client], non-nil, over a state [Q] of the queue system. *)
Record Client (Q : Type) : Type := mkClient {
  EnqueueContext : Context -> Task -> list Option -> State Q (TaskInfo + error)
}.

Arguments EnqueueContext {Q}.

(** [asynq.Handler] *)
Record Handler (W : Type) : Type := HandlerFunc {
  ProcessTask : Context -> Task -> State W (option error)
}.

Arguments HandlerFunc {W}.
Arguments ProcessTask {W}.

(** [asynq.GetTaskID(ctx)] *)
Definition GetTaskID (ctx : Context) : option string := ctx_task_id ctx.

(** [asynq.Config], the part [NewProcessor] fills in. *)
Record Config : Type := mkConfig {
  Concurrency : Z;
  Queues : gmap string Z
}.

End asynq.

(** ** The calls made on collaborators *)

(** One entry per call this package makes on the queue client, on the Store
    behind the interface, or on the wrapped handler. *)
Inductive Call : Type :=
  | CallEnqueueContext (ctx : Context) (t : asynq.Task) (opts : list asynq.Option)
  | CallInsertCreated (ctx : Context) (rec : TaskRecord)
  | CallMarkEnqueued (ctx : Context) (taskID queue : string) (enqueuedAt : Time)
  | CallMarkStarted (ctx : Context) (taskID : string) (startedAt : Time)
  | CallMarkCompleted (ctx : Context) (taskID : string) (resultJSON : option string)
      (finishedAt : Time)
  | CallMarkFailed (ctx : Context) (taskID errorMsg : string) (finishedAt : Time)
  | CallProcessTask (ctx : Context) (t : asynq.Task).

Record World (S : Type) : Type := mkWorld {
  outside : S;
  calls : list Call
}.

Arguments mkWorld {S}.
Arguments outside {S}.
Arguments calls {S}.

(** A call on a collaborator: it runs on the outside state and is logged. *)
Definition call {S A : Type} (c : Call) (m : State S A) : State (World S) A :=
  fun w => let (a, s) := m (outside w) in (a, mkWorld s (calls w ++ [c])).

(** A step that is not a call on a collaborator (reading the clock). *)
Definition quiet {S A : Type} (m : State S A) : State (World S) A :=
  fun w => let (a, s) := m (outside w) in (a, mkWorld s (calls w)).

Section ClientAndProcessor.

(** The outside state (queue system, Store backend, clock, whatever the
    handlers touch), the clock, the payload type and its JSON encoder. *)
Context {S : Type}.
Variable time_Now : State S Time.
Context {Payload : Type}.
Variable json_Marshal : Payload -> string + error.

(** *** The Client *)

Record Client : Type := mkClient {
  client : option (asynq.Client S);
  store : option (Store S);
  queue : string
}.

Record ClientOptions : Type := mkClientOptions { Queue_ : string }.

(** [NewClient]; [cl] is the handle [asynq.NewClient(redisOpt)] returns. *)
Definition NewClient (cl : asynq.Client S) (store : option (Store S))
    (opts : ClientOptions) : Client :=
  let q := Queue_ opts in
  let q := if String.eqb q "" then "default" else q in
  mkClient (Some cl) store q.

Definition Enqueue (c : Client) (ctx : Context) (taskType : string)
    (payload : Payload) (options : list asynq.Option)
  : State (World S) (option asynq.TaskInfo * option error) :=
  match client c with
  | None => mret (None, Some (errors_New "nil asynq client"))
  | Some cl =>
      match json_Marshal payload with
      | inr err => mret (None, Some err)
      | inl payloadBytes =>
          let t := asynq.NewTask taskType payloadBytes in
          let opts := options ++ [asynq.Queue (queue c)] in
          r ← call (CallEnqueueContext ctx t opts) (asynq.EnqueueContext cl ctx t opts);
          match r with
          | inr err => mret (None, Some err)
          | inl info =>
              createdAt ← quiet time_Now;
              enqueuedAt ← quiet time_Now;
              let rec := mkTaskRecord (asynq.ID info) taskType (asynq.Queue_ info)
                           payloadBytes StatusCreated None None
                           (UTC createdAt) (UTC enqueuedAt) None None in
              match store c with
              | Some st =>
                  call (CallInsertCreated ctx rec) (InsertCreated st ctx rec);;
                  now ← quiet time_Now;
                  call (CallMarkEnqueued ctx (asynq.ID info) (asynq.Queue_ info) (UTC now))
                    (MarkEnqueued st ctx (asynq.ID info) (asynq.Queue_ info) (UTC now));;
                  mret (Some info, None)
              | None => mret (Some info, None)
              end
          end
      end
  end.

(** *** processor.go *)

Record Processor : Type := mkProcessor {
  server : asynq.Config;
  pstore : option (Store S)
}.

(** [Queues] is [None] for a nil map. *)
Record ProcessorConfig : Type := mkProcessorConfig {
  Concurrency : Z;
  Queues : option (gmap string Z)
}.

(** [NewProcessor]; the server is represented by the configuration
    [asynq.NewServer] is given. *)
Definition NewProcessor (store : option (Store S)) (cfg : ProcessorConfig) : Processor :=
  let con := Concurrency cfg in
  let con := if (con <=? 0)%Z then 10%Z else con in
  let qs := match Queues cfg with
            | None => {[ "default" := 1%Z ]}
            | Some qs => qs
            end in
  mkProcessor (asynq.mkConfig con qs) store.

Definition lifecycleMiddleware (p : Processor) (next : asynq.Handler S)
  : asynq.Handler (World S) :=
  asynq.HandlerFunc (fun ctx t =>
    match pstore p with
    | Some st =>
        match asynq.GetTaskID ctx with
        | Some id =>
            now ← quiet time_Now;
            call (CallMarkStarted ctx id (UTC now)) (MarkStarted st ctx id (UTC now));;
            mret tt
        | None => mret tt
        end
    | None => mret tt
    end;;
    err ← call (CallProcessTask ctx t) (asynq.ProcessTask next ctx t);
    match pstore p with
    | Some st =>
        match asynq.GetTaskID ctx with
        | Some id =>
            match err with
            | Some e =>
                now ← quiet time_Now;
                call (CallMarkFailed ctx id (Error e) (UTC now))
                  (MarkFailed st ctx id (Error e) (UTC now));;
                mret tt
            | None =>
                now ← quiet time_Now;
                call (CallMarkCompleted ctx id None (UTC now))
                  (MarkCompleted st ctx id None (UTC now));;
                mret tt
            end
        | None => mret tt
        end
    | None => mret tt
    end;;
    mret err).

End ClientAndProcessor.

(** ** The queue library's handling of submission options *)

(** The queue library is a dependency, not part of this repository.  This is
    its documented treatment of the options of one submission: they are
    folded in the order given over the defaults, each option overwriting what
    an earlier one of its kind set; a queue name must not be blank; a task id
    is minted when none is given and must not be taken. *)
Module Broker.

Record options : Type := mkOptions {
  retry : Z;
  queue : string;
  taskID : option string;
  timeout : Z;
  processAt : option Time
}.

Definition defaultMaxRetry : Z := 25.
Definition DefaultQueueName : string := "default".

Definition is_space (c : ascii) : bool :=
  Ascii.eqb c " "%char || Ascii.eqb c "009"%char || Ascii.eqb c "010"%char
  || Ascii.eqb c "013"%char.

Fixpoint blank (s : string) : bool :=
  match s with
  | EmptyString => true
  | String c s' => is_space c && blank s'
  end.

Definition ValidateQueueName (qname : string) : option error :=
  if blank qname then Some (errors_New "queue name must contain one or more characters")
  else None.

Fixpoint composeOptionsFrom (res : options) (opts : list asynq.Option) : options + error :=
  match opts with
  | [] => inl res
  | opt :: rest =>
      match opt with
      | asynq.MaxRetry n =>
          composeOptionsFrom
            (mkOptions n (queue res) (taskID res) (timeout res) (processAt res)) rest
      | asynq.Queue qname =>
          match ValidateQueueName qname with
          | Some err => inr err
          | None =>
              composeOptionsFrom
                (mkOptions (retry res) qname (taskID res) (timeout res) (processAt res)) rest
          end
      | asynq.TaskID id =>
          if blank id then inr (errors_New "task ID cannot be empty")
          else composeOptionsFrom
                 (mkOptions (retry res) (queue res) (Some id) (timeout res) (processAt res))
                 rest
      | asynq.Timeout d =>
          composeOptionsFrom
            (mkOptions (retry res) (queue res) (taskID res) d (processAt res)) rest
      | asynq.ProcessAt t =>
          composeOptionsFrom
            (mkOptions (retry res) (queue res) (taskID res) (timeout res) (Some t)) rest
      end
  end.

Definition composeOptions (opts : list asynq.Option) : options + error :=
  composeOptionsFrom (mkOptions defaultMaxRetry DefaultQueueName None 0 None) opts.

(** The queue system: the tasks submitted so far, oldest first, each with
    the queue it was put on, and the number of ids minted. *)
Record Redis : Type := mkRedis {
  submitted : list asynq.TaskInfo;
  minted : nat
}.

Definition taken (id : string) (r : Redis) : bool :=
  existsb (fun i => String.eqb (asynq.ID i) id) (submitted r).

Definition EnqueueContext (ctx : Context) (t : asynq.Task) (opts : list asynq.Option)
  : State Redis (asynq.TaskInfo + error) :=
  fun r =>
    match composeOptions opts with
    | inr err => (inr err, r)
    | inl o =>
        let id := match taskID o with
                  | Some id => id
                  | None => "task-" +:+ pretty (minted r)
                  end in
        let n := match taskID o with
                 | Some _ => minted r
                 | None => Datatypes.S (minted r)
                 end in
        if taken id r then (inr (errors_New "task ID conflicts with another task"), r)
        else
          let info := asynq.mkTaskInfo id (queue o) (asynq.Type_ t) (asynq.Payload t)
                        (retry o) in
          (inl info, mkRedis (submitted r ++ [info]) n)
    end.

Definition client : asynq.Client Redis := asynq.mkClient Redis EnqueueContext.

End Broker.

(** ** Small collaborators used to run the code on concrete inputs *)

Module Sample.

(** A payload type with one value [encoding/json] refuses. *)
Inductive Doc : Type := Num (n : nat) | Chan.

Definition json_Marshal (d : Doc) : string + error :=
  match d with
  | Num n => inl (pretty n)
  | Chan => inr (foreign 7 "json: unsupported type: chan int")
  end.

(** A clock that reads the number of readings taken, in the local zone. *)
Definition clock (n : nat) : Time := mkTime (Z.of_nat n) LocalLoc.

(** An outside state: clock readings taken and the queue system. *)
Record Outside : Type := mkOutside { readings : nat; redis : Broker.Redis }.

Definition time_Now : State Outside Time :=
  fun s => (clock (readings s), mkOutside (Datatypes.S (readings s)) (redis s)).

Definition queueClient : asynq.Client Outside :=
  asynq.mkClient Outside (fun ctx t opts s =>
    let (r, q) := Broker.EnqueueContext ctx t opts (redis s) in
    (r, mkOutside (readings s) q)).

(** A queue client whose submissions all fail. *)
Definition downClient : asynq.Client Outside :=
  asynq.mkClient Outside (fun ctx t opts s => (inr (foreign 8 "dial tcp: connection refused"), s)).

(** A Store whose every operation fails. *)
Definition failingStore : Store Outside :=
  let err := Some (foreign 9 "database is locked") in
  mkStore Outside
    (fun _ _ s => (err, s)) (fun _ _ _ _ s => (err, s)) (fun _ _ _ s => (err, s))
    (fun _ _ _ _ s => (err, s)) (fun _ _ _ _ s => (err, s))
    (fun _ _ s => ((None, err), s)).

Definition start : World Outside := mkWorld (mkOutside 0 (Broker.mkRedis [] 0)) [].

Definition ctx0 : Context := mkContext None.
Definition ctx1 : Context := mkContext (Some "task-0").

(** Two handlers: one succeeds, one fails with "boom". *)
Definition okHandler : asynq.Handler Outside :=
  asynq.HandlerFunc (fun _ _ s => (None, s)).
Definition failHandler : asynq.Handler Outside :=
  asynq.HandlerFunc (fun _ _ s => (Some (errors_New "boom"), s)).

(** An empty table on each engine, and a starting environment on it. *)
Definition emptyDB (d : Table.Dialect) : Table.Database :=
  Table.mkDatabase d true ∅ 0.

Definition env (d : Table.Dialect) : Env Table.Database := mkEnv 0 (emptyDB d) [].

(** A clock for the database engine, ahead of the process clock. *)
Definition engine_clock (n : nat) : Time := mkTime (1000 + Z.of_nat n) UTCLoc.

Definition rec1 : TaskRecord :=
  mkTaskRecord "task-1" "email:deliver" "default" "{}" StatusFailed (Some "old")
    None (mkTime 99 LocalLoc) zeroTime None None.

End Sample.

(** ** The access pattern of the relational Store, as specified *)

(** "Attempt the statement using one placeholder style; if execution fails
    for any reason, retry once using the other style before surfacing the
    second failure."  The result is the error surfaced, the backend state
    left behind, and the statements sent, in order. *)
Module Spec.
Section WithBackend.

Context {D : Type}.

Definition exec_with_retry (h : DB D) (ctx : Context) (q : Query)
    (args1 args2 : list Value) (d : D) : option error * D * list Stmt :=
  let first := mkStmt q Positional args1 in
  let second := mkStmt q Numbered args2 in
  match ExecContext h ctx first d with
  | (None, d1) => (None, d1, [first])
  | (Some _, d1) =>
      match ExecContext h ctx second d1 with
      | (err2, d2) => (err2, d2, [first; second])
      end
  end.

Definition query_with_retry (h : DB D) (ctx : Context) (q : Query)
    (args1 args2 : list Value) (d : D) : (Scanned + error) * D * list Stmt :=
  let first := mkStmt q Positional args1 in
  let second := mkStmt q Numbered args2 in
  match QueryRowScan h ctx first d with
  | (inl c, d1) => (inl c, d1, [first])
  | (inr _, d1) =>
      match QueryRowScan h ctx second d1 with
      | (r2, d2) => (r2, d2, [first; second])
      end
  end.

(** What a caller of an operation observes, given the outcome of the
    pattern: the value returned, and the environment reached from [w] after
    [n] clock readings. *)
Definition surfaced {A B : Type} (f : A -> B) (n : nat) (w : Env D)
    (o : A * D * list Stmt) : B * Env D :=
  match o with
  | (a, d, l) => (f a, mkEnv (n + ticks w) d (sent w ++ l))
  end.

(** The value [GetByID] returns for the outcome of its [Scan]. *)
Definition found (r : Scanned + error) : option TaskRecord * option error :=
  match r with
  | inl c => (Some (SQLStore.fill c), None)
  | inr err => (None, Some err)
  end.

End WithBackend.
End Spec.

(** ** Statements as sent: shape of the arguments *)

Module Sent.

(** The placeholder character of a style. *)
Definition mark (p : Placeholder) : ascii :=
  match p with
  | Positional => "?"%char
  | Numbered => "$"%char
  end.

(** The statement carries one argument per placeholder of its text. *)
Definition fits_text (st : Stmt) : bool :=
  Nat.eqb (length (args st))
    (SQLStore.occurrences (mark (style st)) (SQLStore.text (query st) (style st))).

Definition in_UTC (v : Value) : bool :=
  match v with
  | VTime t =>
      match location t with
      | UTCLoc => true
      | _ => false
      end
  | _ => true
  end.

(** Every time among the arguments is in UTC. *)
Definition utc_only (st : Stmt) : bool := forallb in_UTC (args st).

(** The statements one operation sends: the positional one, or the
    positional one followed by the numbered one. *)
Definition attempts (q : Query) (args1 args2 : list Value) (l : list Stmt) : Prop :=
  l = [mkStmt q Positional args1]
  \/ l = [mkStmt q Positional args1; mkStmt q Numbered args2].

(** A handle on which every statement fails. *)
Definition down {D : Type} (h : DB D) : Prop :=
  (forall ctx st d, fst (ExecContext h ctx st d) <> None)
  /\ (forall ctx st d, exists err, fst (QueryRowScan h ctx st d) = inr err).

(** A handle to a database that refuses every statement. *)
Definition refusing : DB unit :=
  mkDB unit (fun _ _ d => (Some (foreign 1 "connection refused"), d))
    (fun _ _ d => (inr (foreign 1 "connection refused"), d)).

(** The result [r] of an operation run from [w] has only appended to the
    statements sent, and each statement appended satisfies [P]. *)
Definition appended {D A : Type} (P : Stmt -> Prop) (w : Env D) (r : A * Env D) : Prop :=
  exists l, sent (snd r) = sent w ++ l /\ Forall P l.

End Sent.

(** ** Client, Processor and SQLStore in one process *)

(** The collaborators wired as the README does: one process clock, an
    SQLStore on the table of the migration, the queue system. *)
Module Wired.

Record Sys : Type := mkSys {
  env : Env Table.Database;
  redis : Broker.Redis
}.

Definition on_env {A : Type} (m : State (Env Table.Database) A) : State Sys A :=
  fun s => let (a, e) := m (env s) in (a, mkSys e (redis s)).

Definition on_redis {A : Type} (m : State Broker.Redis A) : State Sys A :=
  fun s => let (a, r) := m (redis s) in (a, mkSys (env s) r).

Section WithClocks.

Variable clock : nat -> Time.
Variable engine_clock : nat -> Time.

Definition time_Now : State Sys Time := on_env (SQLStore.time_Now clock).

Definition store : Store Sys :=
  let s := SQLStore.as_Store clock (Table.store engine_clock) in
  mkStore Sys
    (fun ctx rec => on_env (InsertCreated s ctx rec))
    (fun ctx id q t => on_env (MarkEnqueued s ctx id q t))
    (fun ctx id t => on_env (MarkStarted s ctx id t))
    (fun ctx id res t => on_env (MarkCompleted s ctx id res t))
    (fun ctx id msg t => on_env (MarkFailed s ctx id msg t))
    (fun ctx id => on_env (GetByID s ctx id)).

Definition client : asynq.Client Sys :=
  asynq.mkClient Sys (fun ctx t opts => on_redis (Broker.EnqueueContext ctx t opts)).

End WithClocks.

(** A starting state on an empty table of the given engine. *)
Definition fresh (d : Table.Dialect) : World Sys :=
  mkWorld (mkSys (Sample.env d) (Broker.mkRedis [] 0)) [].

(** A state in which the task [task-1] has run and failed: its row is in
    the table, and the queue system has forgotten it. *)
Definition used (d : Table.Dialect) : World Sys :=
  let st := Table.store Sample.engine_clock in
  let e1 := snd (SQLStore.InsertCreated Sample.clock st Sample.ctx0 Sample.rec1
                   (Sample.env d)) in
  let e2 := snd (SQLStore.MarkFailed st Sample.ctx0 "task-1" "boom"
                   (mkTime 50 LocalLoc) e1) in
  mkWorld (mkSys e2 (Broker.mkRedis [] 0)) [].


End Wired.

(** * Properties *)

(** ** SQLStore over any database handle *)

Section AnyHandle.

Context {D : Type}.
Variable clock : nat -> Time.

Local Ltac run_state :=
  repeat (progress (cbv [mbind mret State_bind State_ret SQLStore.time_Now
                          SQLStore.db_ExecContext SQLStore.db_QueryRowScan
                          Spec.surfaced Spec.found]; simpl)).

(** The positional texts hold one [?] per argument and no [$]; the numbered
    texts hold one [$] per argument and no [?]. *)
Lemma text_placeholders (q : Query) :
  SQLStore.occurrences "?" (SQLStore.text q Positional) = SQLStore.arity q
  /\ SQLStore.occurrences "$" (SQLStore.text q Positional) = 0
  /\ SQLStore.occurrences "$" (SQLStore.text q Numbered) = SQLStore.arity q
  /\ SQLStore.occurrences "?" (SQLStore.text q Numbered) = 0.
Proof. destruct q; vm_compute; repeat split. Qed.

(** C5. With a non-nil database handle, each of the six operations sends
    its statement first with positional [?] placeholders; when that attempt
    succeeds nothing else is sent and the operation succeeds; when it fails,
    whatever the error, the statement is sent exactly once more with
    numbered [$n] placeholders, and what the caller gets is the outcome of
    that second attempt (its error, or success).  [InsertCreated] reads the
    clock anew for each attempt. *)
Theorem two_placeholder_attempts (h : DB D) (ctx : Context) (w : Env D) :
  let s := SQLStore.NewSQLStore (Some h) in
  (forall rec : TaskRecord,
      let row t := [VString (ID rec); VString (Type_ rec); VString (Queue rec);
                    VString (PayloadJSON rec); VString StatusCreated; VTime (UTC t)] in
      let o := Spec.exec_with_retry h ctx InsertTask (row (clock (ticks w)))
                 (row (clock (S (ticks w)))) (backend w) in
      SQLStore.InsertCreated clock s ctx rec w = Spec.surfaced id (length (snd o)) w o)
  /\ (forall (taskID queue : string) (enqueuedAt : Time),
      let a := [VString StatusCreated; VString queue; VTime (UTC enqueuedAt);
                VString taskID] in
      SQLStore.MarkEnqueued s ctx taskID queue enqueuedAt w
      = Spec.surfaced id 0 w (Spec.exec_with_retry h ctx UpdateEnqueued a a (backend w)))
  /\ (forall (taskID : string) (startedAt : Time),
      let a := [VString StatusInProgress; VTime (UTC startedAt); VString taskID] in
      SQLStore.MarkStarted s ctx taskID startedAt w
      = Spec.surfaced id 0 w (Spec.exec_with_retry h ctx UpdateStarted a a (backend w)))
  /\ (forall (taskID : string) (resultJSON : option string) (finishedAt : Time),
      let a := [VString StatusCompleted; SQLStore.string_ptr resultJSON;
                VTime (UTC finishedAt); VString taskID] in
      SQLStore.MarkCompleted s ctx taskID resultJSON finishedAt w
      = Spec.surfaced id 0 w (Spec.exec_with_retry h ctx UpdateCompleted a a (backend w)))
  /\ (forall (taskID errorMsg : string) (finishedAt : Time),
      let a := [VString StatusFailed; VString errorMsg; VTime (UTC finishedAt);
                VString taskID] in
      SQLStore.MarkFailed s ctx taskID errorMsg finishedAt w
      = Spec.surfaced id 0 w (Spec.exec_with_retry h ctx UpdateFailed a a (backend w)))
  /\ (forall taskID : string,
      let a := [VString taskID] in
      SQLStore.GetByID s ctx taskID w
      = Spec.surfaced Spec.found 0 w
          (Spec.query_with_retry h ctx SelectByID a a (backend w))).
Proof.
  cbv zeta. repeat split; intros.
  - unfold SQLStore.InsertCreated, Spec.exec_with_retry. run_state.
    destruct (ExecContext h ctx _ (backend w)) as [[e|] d1]; run_state; [|reflexivity].
    destruct (ExecContext h ctx _ d1) as [e2 d2]; run_state.
    rewrite <- app_assoc. reflexivity.
  - unfold SQLStore.MarkEnqueued, Spec.exec_with_retry. run_state.
    destruct (ExecContext h ctx _ (backend w)) as [[e|] d1]; run_state; [|reflexivity].
    destruct (ExecContext h ctx _ d1) as [e2 d2]; run_state.
    rewrite <- app_assoc. reflexivity.
  - unfold SQLStore.MarkStarted, Spec.exec_with_retry. run_state.
    destruct (ExecContext h ctx _ (backend w)) as [[e|] d1]; run_state; [|reflexivity].
    destruct (ExecContext h ctx _ d1) as [e2 d2]; run_state.
    rewrite <- app_assoc. reflexivity.
  - unfold SQLStore.MarkCompleted, Spec.exec_with_retry. run_state.
    destruct (ExecContext h ctx _ (backend w)) as [[e|] d1]; run_state; [|reflexivity].
    destruct (ExecContext h ctx _ d1) as [e2 d2]; run_state.
    rewrite <- app_assoc. reflexivity.
  - unfold SQLStore.MarkFailed, Spec.exec_with_retry. run_state.
    destruct (ExecContext h ctx _ (backend w)) as [[e|] d1]; run_state; [|reflexivity].
    destruct (ExecContext h ctx _ d1) as [e2 d2]; run_state.
    rewrite <- app_assoc. reflexivity.
  - unfold SQLStore.GetByID, Spec.query_with_retry. run_state.
    destruct (QueryRowScan h ctx _ (backend w)) as [[c|e] d1]; run_state; [reflexivity|].
    destruct (QueryRowScan h ctx _ d1) as [[c2|e2] d2]; run_state;
      rewrite <- app_assoc; reflexivity.
Qed.

(** C10. A store built on a nil database handle: each of the six
    operations returns a non-nil error and leaves the environment as it
    was (no statement sent, no clock reading, backend untouched);
    [GetByID] also returns a nil record. *)
Theorem nil_handle_fails_without_access (ctx : Context) (w : Env D) :
  let s := SQLStore.NewSQLStore (D := D) None in
  (forall rec, exists err, SQLStore.InsertCreated clock s ctx rec w = (Some err, w))
  /\ (forall taskID queue enqueuedAt, exists err,
        SQLStore.MarkEnqueued s ctx taskID queue enqueuedAt w = (Some err, w))
  /\ (forall taskID startedAt, exists err,
        SQLStore.MarkStarted s ctx taskID startedAt w = (Some err, w))
  /\ (forall taskID resultJSON finishedAt, exists err,
        SQLStore.MarkCompleted s ctx taskID resultJSON finishedAt w = (Some err, w))
  /\ (forall taskID errorMsg finishedAt, exists err,
        SQLStore.MarkFailed s ctx taskID errorMsg finishedAt w = (Some err, w))
  /\ (forall taskID, exists err,
        SQLStore.GetByID s ctx taskID w = ((None, Some err), w)).
Proof.
  intros s. repeat split; intros; exists (errors_New "nil db"); reflexivity.
Qed.

End AnyHandle.

(** ** SQLStore over the table of the migration *)

Section OnTable.

Variable clock : nat -> Time.
Variable engine_clock : nat -> Time.

Local Abbreviation store := (Table.store engine_clock).

Lemma alter_absent (f : Table.Row -> Table.Row) (id : string) (m : gmap string Table.Row) :
  m !! id = None -> alter f id m = m.
Proof.
  intros H. apply map_eq. intros j. rewrite lookup_alter.
  case_decide; [subst; rewrite H|]; reflexivity.
Qed.

Local Ltac run_table :=
  cbv [SQLStore.InsertCreated SQLStore.MarkEnqueued SQLStore.MarkStarted
       SQLStore.MarkCompleted SQLStore.MarkFailed SQLStore.GetByID
       SQLStore.db SQLStore.NewSQLStore Table.store
       mbind mret State_bind State_ret SQLStore.time_Now
       SQLStore.db_ExecContext SQLStore.db_QueryRowScan
       Table.handle ExecContext QueryRowScan Table.exec Table.select
       Table.write Table.accepts Table.with_rows negb
       query style args backend ticks sent SQLStore.string_ptr
       Table.dialect Table.reachable Table.rows Table.served fst snd].

(** C6. On a reachable database, each Mark operation on an id that has no
    row returns nil: the update matches nothing, leaves the rows as they
    were, and is reported exactly as a successful update is. *)
Theorem mark_without_row_is_success (ctx : Context) (id : string)
    (w : Env Table.Database) :
  Table.reachable (backend w) = true ->
  Table.rows (backend w) !! id = None ->
  (forall q t,
      let r := SQLStore.MarkEnqueued store ctx id q t w in
      fst r = None /\ Table.rows (backend (snd r)) = Table.rows (backend w))
  /\ (forall t,
      let r := SQLStore.MarkStarted store ctx id t w in
      fst r = None /\ Table.rows (backend (snd r)) = Table.rows (backend w))
  /\ (forall res t,
      let r := SQLStore.MarkCompleted store ctx id res t w in
      fst r = None /\ Table.rows (backend (snd r)) = Table.rows (backend w))
  /\ (forall msg t,
      let r := SQLStore.MarkFailed store ctx id msg t w in
      fst r = None /\ Table.rows (backend (snd r)) = Table.rows (backend w)).
Proof.
  intros Hup Hno.
  destruct w as [n [dl up rows k] log]. simpl in Hup, Hno. subst up.
  repeat split; try (destruct res); destruct dl; run_table;
    solve [reflexivity | apply alter_absent; exact Hno].
Qed.

(** C4. When [InsertCreated rec] succeeds, a following [GetByID (ID rec)]
    succeeds with a record that has the id, type, queue and payload of
    [rec] and the status [created]. *)
Theorem InsertCreated_then_GetByID (ctx ctx' : Context) (rec : TaskRecord)
    (w : Env Table.Database) :
  fst (SQLStore.InsertCreated clock store ctx rec w) = None ->
  exists got,
    fst (SQLStore.GetByID store ctx' (ID rec)
           (snd (SQLStore.InsertCreated clock store ctx rec w))) = (Some got, None)
    /\ ID got = ID rec /\ Type_ got = Type_ rec /\ Queue got = Queue rec
    /\ PayloadJSON got = PayloadJSON rec /\ Status_ got = StatusCreated.
Proof.
  destruct w as [n [dl up rows k] log].
  destruct up, dl, (rows !! ID rec) eqn:Hrow; run_table; rewrite ?Hrow;
    try discriminate; intros _; run_table; rewrite lookup_insert_eq;
    eexists; (split; [reflexivity|]); repeat split.
Qed.

(** C8. On a row that exists, a [MarkEnqueued id q t] that succeeds leaves
    the row with status [created] (there is no status of its own for
    "enqueued"), queue [q] and enqueued_at the instant [t], kept in UTC; a
    following [GetByID id] returns a record with that status and queue and
    with [EnqueuedAt] the instant [t]. *)
Theorem MarkEnqueued_then_GetByID (ctx ctx' : Context) (id q : string) (t : Time)
    (w : Env Table.Database) :
  is_Some (Table.rows (backend w) !! id) ->
  fst (SQLStore.MarkEnqueued store ctx id q t w) = None ->
  let w' := snd (SQLStore.MarkEnqueued store ctx id q t w) in
  (exists row, Table.rows (backend w') !! id = Some row
               /\ Table.status row = StatusCreated
               /\ Table.queue row = q
               /\ Table.enqueued_at row = Some (UTC t))
  /\ (exists got, fst (SQLStore.GetByID store ctx' id w') = (Some got, None)
                  /\ ID got = id
                  /\ Status_ got = StatusCreated
                  /\ Queue got = q
                  /\ EnqueuedAt got = UTC t
                  /\ Equal (EnqueuedAt got) t = true).
Proof.
  intros [row Hrow].
  destruct w as [n [dl up rows k] log]. simpl in Hrow.
  destruct up, dl; run_table; try discriminate; intros _;
    rewrite lookup_alter_eq, Hrow; simpl;
    (split; eexists; (split; [reflexivity|]); repeat split;
     unfold Equal; simpl; apply Z.eqb_refl).
Qed.

(** C9. [InsertCreated] does not look at the status and the creation time
    of the record it is given: with other values there the call does the
    same.  When it succeeds, the row it has written has the status
    [created] and, as created_at, the current time the call itself read
    from the clock ([time.Now()], the reading taken for the attempt that
    went through), in UTC. *)
Theorem InsertCreated_sets_status_and_created_at (ctx : Context) (rec : TaskRecord)
    (w : Env Table.Database) :
  fst (SQLStore.InsertCreated clock store ctx rec w) = None ->
  let w' := snd (SQLStore.InsertCreated clock store ctx rec w) in
  (forall (status : Status) (createdAt : Time),
      SQLStore.InsertCreated clock store ctx
        (mkTaskRecord (ID rec) (Type_ rec) (Queue rec) (PayloadJSON rec) status
           (ErrorMsg rec) (ResultJSON rec) createdAt (EnqueuedAt rec)
           (StartedAt rec) (FinishedAt rec)) w
      = SQLStore.InsertCreated clock store ctx rec w)
  /\ (exists row, Table.rows (backend w') !! ID rec = Some row
                  /\ Table.status row = "created"
                  /\ ticks w < ticks w'
                  /\ Table.created_at row = UTC (clock (pred (ticks w')))).
Proof.
  intros Hok w'. split; [reflexivity|]. revert Hok. subst w'.
  destruct w as [n [dl up rows k] log].
  destruct up, dl, (rows !! ID rec) eqn:Hrow; run_table; rewrite ?Hrow;
    try discriminate; intros _; rewrite lookup_insert_eq;
    eexists; (split; [reflexivity|]); repeat split; simpl; lia.
Qed.

End OnTable.


(** ** Client and Processor over any collaborators *)

Section AnyCollaborators.

Context {S : Type}.
Variable time_Now : State S Time.
Context {Payload : Type}.
Variable json_Marshal : Payload -> string + error.

Local Ltac run_calls :=
  cbv [mbind mret State_bind State_ret call quiet outside calls fst snd
       client store queue pstore].


(** An acknowledgement returned by [Enqueue] is the one the queue client
    gave, for the caller's options followed by the client's own queue. *)
Lemma Enqueue_acknowledged (c : Client) (ctx : Context) (taskType : string)
    (payload : Payload) (options : list asynq.Option) (w : World S)
    (info : asynq.TaskInfo) :
  fst (fst (Enqueue time_Now json_Marshal c ctx taskType payload options w)) = Some info ->
  exists cl bytes s1,
    client c = Some cl
    /\ json_Marshal payload = inl bytes
    /\ asynq.EnqueueContext cl ctx (asynq.NewTask taskType bytes)
         (options ++ [asynq.Queue (queue c)]) (outside w) = (inl info, s1).
Proof.
  destruct w as [s0 log]. destruct c as [[cl|] st q]; [|discriminate].
  unfold Enqueue. run_calls.
  destruct (json_Marshal payload) as [bytes|e]; [|discriminate].
  destruct (asynq.EnqueueContext cl ctx _ _ s0) as [[ack|e] s1] eqn:Hsub;
    [|discriminate].
  destruct (time_Now s1) as [t1 s2]. destruct (time_Now s2) as [t2 s3].
  destruct st as [st|].
  - destruct (InsertCreated st ctx _ s3) as [e1 s4].
    destruct (time_Now s4) as [t3 s5].
    destruct (MarkEnqueued st ctx _ _ _ s5) as [e2 s6].
    simpl. intros H. injection H as <-. exists cl, bytes, s1. auto.
  - simpl. intros H. injection H as <-. exists cl, bytes, s1. auto.
Qed.


(** C7. On a client that has a queue handle: when the payload does not
    serialize, [Enqueue] returns the serialization error and nothing has
    been called (no submission, no Store write); when the submission
    fails, [Enqueue] returns the error of the queue system, the submission
    is the only call made, and the outside state is the one the queue
    client left (no Store write). *)
Theorem Enqueue_failure_writes_nothing (cl : asynq.Client S) (st : option (Store S))
    (q : string) (ctx : Context) (taskType : string) (payload : Payload)
    (options : list asynq.Option) (w : World S) :
  let c := mkClient (Some cl) st q in
  (forall err,
      json_Marshal payload = inr err ->
      Enqueue time_Now json_Marshal c ctx taskType payload options w = ((None, Some err), w))
  /\ (forall bytes err s1,
      json_Marshal payload = inl bytes ->
      asynq.EnqueueContext cl ctx (asynq.NewTask taskType bytes)
        (options ++ [asynq.Queue q]) (outside w) = (inr err, s1) ->
      Enqueue time_Now json_Marshal c ctx taskType payload options w
      = ((None, Some err),
         mkWorld s1 (calls w ++ [CallEnqueueContext ctx (asynq.NewTask taskType bytes)
                                   (options ++ [asynq.Queue q])]))).
Proof.
  destruct w as [s0 log]. split.
  - intros err Hjson. unfold Enqueue. run_calls. rewrite Hjson. reflexivity.
  - intros bytes err s1 Hjson Hsub. simpl outside in Hsub.
    unfold Enqueue. run_calls. rewrite Hjson, Hsub. reflexivity.
Qed.

(** C3. For a task whose id can be read from the context, the middleware
    of a processor that has a Store reads the clock and calls
    [MarkStarted], then runs the handler from the state this left, then
    reads the clock and calls [MarkFailed] with the message of the
    handler's error, or [MarkCompleted] with a nil result when there is no
    error; it returns what the handler returned, whatever the three Store
    calls answered. *)
Theorem lifecycle_marks_around_handler (cfg : asynq.Config) (st : Store S)
    (next : asynq.Handler S) (ctx : Context) (t : asynq.Task) (id : string)
    (w : World S) :
  asynq.GetTaskID ctx = Some id ->
  let p := mkProcessor cfg (Some st) in
  let r := asynq.ProcessTask (lifecycleMiddleware time_Now p next) ctx t w in
  let startedAt := UTC (fst (time_Now (outside w))) in
  let s1 := snd (MarkStarted st ctx id startedAt (snd (time_Now (outside w)))) in
  let err := fst (asynq.ProcessTask next ctx t s1) in
  let s2 := snd (asynq.ProcessTask next ctx t s1) in
  let finishedAt := UTC (fst (time_Now s2)) in
  fst r = err
  /\ calls (snd r)
     = calls w ++ [CallMarkStarted ctx id startedAt;
                   CallProcessTask ctx t;
                   match err with
                   | Some e => CallMarkFailed ctx id (Error e) finishedAt
                   | None => CallMarkCompleted ctx id None finishedAt
                   end]
  /\ outside (snd r)
     = match err with
       | Some e => snd (MarkFailed st ctx id (Error e) finishedAt (snd (time_Now s2)))
       | None => snd (MarkCompleted st ctx id None finishedAt (snd (time_Now s2)))
       end.
Proof.
  intros Hid. destruct w as [s0 log]. cbv zeta.
  unfold lifecycleMiddleware. cbn [asynq.ProcessTask]. run_calls.
  rewrite Hid.
  destruct (time_Now s0) as [t0 s0'].
  destruct (MarkStarted st ctx id (UTC t0) s0') as [e1 s1].
  destruct (asynq.ProcessTask next ctx t s1) as [[e|] s2];
    destruct (time_Now s2) as [t1 s2'].
  - destruct (MarkFailed st ctx id (Error e) (UTC t1) s2') as [e2 s3].
    rewrite <- !app_assoc. repeat split.
  - destruct (MarkCompleted st ctx id None (UTC t1) s2') as [e2 s3].
    rewrite <- !app_assoc. repeat split.
Qed.

End AnyCollaborators.

(** ** The queue a submission lands on *)

Lemma composeOptionsFrom_queue_last (opts : list asynq.Option) (q : string)
    (res o : Broker.options) :
  Broker.composeOptionsFrom res (opts ++ [asynq.Queue q]) = inl o ->
  Broker.queue o = q.
Proof.
  revert res. induction opts as [|opt rest IH]; intros res; simpl.
  - destruct (Broker.ValidateQueueName q); [discriminate|].
    intros H. injection H as <-. reflexivity.
  - destruct opt; try apply IH.
    + destruct (Broker.ValidateQueueName name); [discriminate|]. apply IH.
    + destruct (Broker.blank id); [discriminate|]. apply IH.
Qed.

(** Whatever options the caller passes, a submission through [Enqueue] that
    the queue library accepts lands on the queue configured in the client. *)
Lemma Enqueue_lands_on_configured_queue (st : option (Store Sample.Outside))
    (q : string) (ctx : Context) (taskType : string) (payload : Sample.Doc)
    (options : list asynq.Option) (w : World Sample.Outside) (info : asynq.TaskInfo) :
  fst (fst (Enqueue Sample.time_Now Sample.json_Marshal
              (mkClient (Some Sample.queueClient) st q) ctx taskType payload options w))
  = Some info ->
  asynq.Queue_ info = q.
Proof.
  intros H. apply Enqueue_acknowledged in H as (cl & bytes & s1 & Hcl & _ & Hsub).
  simpl in Hcl. injection Hcl as <-.
  unfold Sample.queueClient in Hsub. cbn [asynq.EnqueueContext] in Hsub.
  unfold Broker.EnqueueContext in Hsub. simpl queue in Hsub.
  destruct (Broker.composeOptions _) as [o|e] eqn:Hopts; [|discriminate].
  apply composeOptionsFrom_queue_last in Hopts.
  destruct (Broker.taken _ _); [discriminate|].
  injection Hsub as <- _. exact Hopts.
Qed.

(** C1. A client configured with the queue [default] is asked to enqueue
    with the option [Queue critical]: the options handed to the queue library
    are the caller's followed by the client's own [Queue default], and the
    task is acknowledged and stored on [default], not on [critical]. *)
Theorem caller_queue_is_overridden :
  let c := NewClient Sample.queueClient None (mkClientOptions "default") in
  let r := Enqueue Sample.time_Now Sample.json_Marshal c Sample.ctx0 "email:deliver"
             (Sample.Num 1) [asynq.Queue "critical"] Sample.start in
  exists info,
    fst r = (Some info, None)
    /\ asynq.Queue_ info = "default"
    /\ Broker.submitted (Sample.redis (outside (snd r))) = [info]
    /\ calls (snd r)
       = [CallEnqueueContext Sample.ctx0 (asynq.NewTask "email:deliver" "1")
            [asynq.Queue "critical"; asynq.Queue "default"]].
Proof.
  eexists. vm_compute. repeat split.
Qed.

(** ** The properties with hypotheses, at concrete inputs *)

Lemma mark_without_row_is_success_witness :
  Table.reachable (backend (Sample.env Table.Postgres)) = true
  /\ Table.rows (backend (Sample.env Table.Postgres)) !! "missing" = None
  /\ fst (SQLStore.MarkFailed (Table.store Sample.engine_clock) Sample.ctx0 "missing"
            "boom" (mkTime 7 LocalLoc) (Sample.env Table.Postgres)) = None.
Proof.
  split; [reflexivity|]. split; [reflexivity|].
  apply (mark_without_row_is_success Sample.engine_clock Sample.ctx0 "missing"
           (Sample.env Table.Postgres) eq_refl eq_refl).
Defined.

Lemma InsertCreated_then_GetByID_witness :
  fst (SQLStore.InsertCreated Sample.clock (Table.store Sample.engine_clock) Sample.ctx0
         Sample.rec1 (Sample.env Table.Postgres)) = None
  /\ exists got,
      fst (SQLStore.GetByID (Table.store Sample.engine_clock) Sample.ctx0 "task-1"
             (snd (SQLStore.InsertCreated Sample.clock (Table.store Sample.engine_clock)
                     Sample.ctx0 Sample.rec1 (Sample.env Table.Postgres))))
      = (Some got, None)
      /\ ID got = "task-1" /\ Type_ got = "email:deliver" /\ Queue got = "default"
      /\ PayloadJSON got = "{}" /\ Status_ got = StatusCreated.
Proof.
  split; [vm_compute; reflexivity|].
  apply (InsertCreated_then_GetByID Sample.clock Sample.engine_clock Sample.ctx0
           Sample.ctx0 Sample.rec1 (Sample.env Table.Postgres)).
  vm_compute. reflexivity.
Defined.

Lemma MarkEnqueued_then_GetByID_witness :
  let w := snd (SQLStore.InsertCreated Sample.clock (Table.store Sample.engine_clock)
                  Sample.ctx0 Sample.rec1 (Sample.env Table.MySQL)) in
  let t := mkTime 42 (FixedZone 3600) in
  let w' := snd (SQLStore.MarkEnqueued (Table.store Sample.engine_clock) Sample.ctx0
                   "task-1" "critical" t w) in
  exists got,
    fst (SQLStore.GetByID (Table.store Sample.engine_clock) Sample.ctx0 "task-1" w')
    = (Some got, None)
    /\ ID got = "task-1"
    /\ Status_ got = StatusCreated
    /\ Queue got = "critical"
    /\ EnqueuedAt got = UTC t
    /\ Equal (EnqueuedAt got) t = true.
Proof.
  intros w t w'.
  refine (proj2 (MarkEnqueued_then_GetByID Sample.engine_clock Sample.ctx0 Sample.ctx0
                   "task-1" "critical" t w _ _)).
  - exists (Table.mkRow "email:deliver" "default" "{}" "created" None None
              (mkTime 0 UTCLoc) None None None None).
    vm_compute. reflexivity.
  - vm_compute. reflexivity.
Defined.

Lemma InsertCreated_sets_status_and_created_at_witness :
  let w := Sample.env Table.Postgres in
  let w' := snd (SQLStore.InsertCreated Sample.clock (Table.store Sample.engine_clock)
                   Sample.ctx0 Sample.rec1 w) in
  Status_ Sample.rec1 = StatusFailed
  /\ CreatedAt Sample.rec1 = mkTime 99 LocalLoc
  /\ exists row, Table.rows (backend w') !! "task-1" = Some row
                 /\ Table.status row = "created"
                 /\ ticks w < ticks w'
                 /\ Table.created_at row = UTC (Sample.clock (pred (ticks w'))).
Proof.
  intros w w'. split; [reflexivity|]. split; [reflexivity|].
  refine (proj2 (InsertCreated_sets_status_and_created_at Sample.clock
                   Sample.engine_clock Sample.ctx0 Sample.rec1 w _)).
  vm_compute. reflexivity.
Defined.


Lemma Enqueue_failure_writes_nothing_witness :
  Enqueue Sample.time_Now Sample.json_Marshal
    (mkClient (Some Sample.queueClient) (Some Sample.failingStore) "low")
    Sample.ctx0 "email:deliver" Sample.Chan [] Sample.start
  = ((None, Some (foreign 7 "json: unsupported type: chan int")), Sample.start)
  /\ Enqueue Sample.time_Now Sample.json_Marshal
       (mkClient (Some Sample.downClient) (Some Sample.failingStore) "low")
       Sample.ctx0 "email:deliver" (Sample.Num 3) [] Sample.start
     = ((None, Some (foreign 8 "dial tcp: connection refused")),
        mkWorld (outside Sample.start)
          [CallEnqueueContext Sample.ctx0 (asynq.NewTask "email:deliver" "3")
             [asynq.Queue "low"]]).
Proof.
  split.
  - refine (proj1 (Enqueue_failure_writes_nothing Sample.time_Now Sample.json_Marshal
                     Sample.queueClient (Some Sample.failingStore) "low" Sample.ctx0
                     "email:deliver" Sample.Chan [] Sample.start) _ _).
    reflexivity.
  - refine (proj2 (Enqueue_failure_writes_nothing Sample.time_Now Sample.json_Marshal
                     Sample.downClient (Some Sample.failingStore) "low" Sample.ctx0
                     "email:deliver" (Sample.Num 3) [] Sample.start) "3" _ _ _ _).
    + vm_compute. reflexivity.
    + reflexivity.
Defined.

Lemma lifecycle_marks_around_handler_witness :
  asynq.GetTaskID Sample.ctx1 = Some "task-0"
  /\ let r := asynq.ProcessTask
                (lifecycleMiddleware Sample.time_Now
                   (NewProcessor (Some Sample.failingStore) (mkProcessorConfig 0 None))
                   Sample.failHandler)
                Sample.ctx1 (asynq.NewTask "email:deliver" "3") Sample.start in
     fst r = Some (errors_New "boom")
     /\ calls (snd r)
        = [CallMarkStarted Sample.ctx1 "task-0" (mkTime 0 UTCLoc);
           CallProcessTask Sample.ctx1 (asynq.NewTask "email:deliver" "3");
           CallMarkFailed Sample.ctx1 "task-0" "boom" (mkTime 1 UTCLoc)].
Proof.
  split; [reflexivity|].
  pose proof (lifecycle_marks_around_handler Sample.time_Now
                (asynq.mkConfig 10 {[ "default" := 1%Z ]}) Sample.failingStore
                Sample.failHandler Sample.ctx1 (asynq.NewTask "email:deliver" "3")
                "task-0" Sample.start eq_refl) as H.
  cbv zeta in H. destruct H as (H1 & H2 & _). split.
  - exact H1.
  - exact H2.
Defined.

(** ** The scenarios of store_test.go and of the package tests, on SQLite *)

Example TestSQLStore_Lifecycle_Success :
  let store := Table.store Sample.engine_clock in
  let ctx := Sample.ctx0 in
  let rec := mkTaskRecord "task-1" "email:deliver" "default" "{user_id:123}"
               StatusCreated None None (mkTime 5 UTCLoc) zeroTime None None in
  let w0 := Sample.env Table.SQLite in
  let '(e1, w1) := SQLStore.InsertCreated Sample.clock store ctx rec w0 in
  let '(e2, w2) := SQLStore.MarkEnqueued store ctx (ID rec) (Queue rec) (mkTime 6 UTCLoc) w1 in
  let '(e3, w3) := SQLStore.MarkStarted store ctx (ID rec) (mkTime 7 UTCLoc) w2 in
  let '(e4, w4) := SQLStore.MarkCompleted store ctx (ID rec) (Some "{ok:true}")
                     (mkTime 8 UTCLoc) w3 in
  let '(got, e5, _) := SQLStore.GetByID store ctx (ID rec) w4 in
  [e1; e2; e3; e4; e5] = [None; None; None; None; None]
  /\ (ID <$> got) = Some "task-1"
  /\ (Status_ <$> got) = Some StatusCompleted
  /\ (ResultJSON <$> got) = Some (Some "{ok:true}")
  /\ (StartedAt <$> got) = Some (Some (mkTime 7 UTCLoc))
  /\ (FinishedAt <$> got) = Some (Some (mkTime 8 UTCLoc))
  /\ length (sent w4) = 4.
Proof. vm_compute. repeat split. Qed.

Example TestSQLStore_MarkFailed :
  let store := Table.store Sample.engine_clock in
  let ctx := Sample.ctx0 in
  let rec := mkTaskRecord "task-2" "email:deliver" "default" "{}"
               StatusCreated None None (mkTime 5 UTCLoc) zeroTime None None in
  let '(e1, w1) := SQLStore.InsertCreated Sample.clock store ctx rec (Sample.env Table.SQLite) in
  let '(e2, w2) := SQLStore.MarkFailed store ctx (ID rec) "boom" (mkTime 8 UTCLoc) w1 in
  let '(got, e3, _) := SQLStore.GetByID store ctx (ID rec) w2 in
  [e1; e2; e3] = [None; None; None]
  /\ (Status_ <$> got) = Some StatusFailed
  /\ (ErrorMsg <$> got) = Some (Some "boom").
Proof. vm_compute. repeat split. Qed.

Example TestSQLStore_GetByID_NotFound :
  let store := Table.store Sample.engine_clock in
  let '(got, err, w) := SQLStore.GetByID store Sample.ctx0 "missing" (Sample.env Table.SQLite) in
  got = None /\ err = Some Table.ErrNoRows
  /\ sent w = [mkStmt SelectByID Positional [VString "missing"];
               mkStmt SelectByID Numbered [VString "missing"]].
Proof. vm_compute. repeat split. Qed.

(** A second [InsertCreated] of the same id fails on both attempts. *)
Example InsertCreated_twice :
  let store := Table.store Sample.engine_clock in
  let '(e1, w1) := SQLStore.InsertCreated Sample.clock store Sample.ctx0 Sample.rec1
                     (Sample.env Table.SQLite) in
  let '(e2, w2) := SQLStore.InsertCreated Sample.clock store Sample.ctx0 Sample.rec1 w1 in
  e1 = None /\ e2 = Some Table.errDuplicate /\ length (sent w2) = 3
  /\ Table.rows (backend w2) = Table.rows (backend w1).
Proof. vm_compute. repeat split. Qed.

Example NewClient_default_queue :
  queue (NewClient Sample.queueClient None (mkClientOptions "")) = "default"
  /\ queue (NewClient Sample.queueClient None (mkClientOptions "low")) = "low".
Proof. split; reflexivity. Qed.

Example NewProcessor_defaults :
  server (NewProcessor (S := Sample.Outside) None (mkProcessorConfig (-1) None))
  = asynq.mkConfig 10 {[ "default" := 1%Z ]}
  /\ server (NewProcessor (S := Sample.Outside) None
               (mkProcessorConfig 5 (Some {[ "critical" := 6%Z ]})))
     = asynq.mkConfig 5 {[ "critical" := 6%Z ]}.
Proof. split; reflexivity. Qed.

(** The handler that succeeds: started, then completed with no result. *)
Example middleware_completed :
  let r := asynq.ProcessTask
             (lifecycleMiddleware Sample.time_Now
                (NewProcessor (Some Sample.failingStore) (mkProcessorConfig 5 None))
                Sample.okHandler)
             Sample.ctx1 (asynq.NewTask "it:ok" "1") Sample.start in
  fst r = None
  /\ calls (snd r)
     = [CallMarkStarted Sample.ctx1 "task-0" (mkTime 0 UTCLoc);
        CallProcessTask Sample.ctx1 (asynq.NewTask "it:ok" "1");
        CallMarkCompleted Sample.ctx1 "task-0" None (mkTime 1 UTCLoc)].
Proof. vm_compute. split; reflexivity. Qed.

(** Without a task id in the context only the handler is called. *)
Example middleware_without_task_id :
  let r := asynq.ProcessTask
             (lifecycleMiddleware Sample.time_Now
                (NewProcessor (Some Sample.failingStore) (mkProcessorConfig 5 None))
                Sample.failHandler)
             Sample.ctx0 (asynq.NewTask "it:fail" "2") Sample.start in
  fst r = Some (errors_New "boom")
  /\ calls (snd r) = [CallProcessTask Sample.ctx0 (asynq.NewTask "it:fail" "2")].
Proof. vm_compute. split; reflexivity. Qed.


(** * Further properties *)

(** ** Reading back what the Mark operations wrote *)

Section ReadBack.

Variable clock : nat -> Time.
Variable engine_clock : nat -> Time.

Local Abbreviation store := (Table.store engine_clock).

Local Ltac run_table :=
  cbv [SQLStore.InsertCreated SQLStore.MarkEnqueued SQLStore.MarkStarted
       SQLStore.MarkCompleted SQLStore.MarkFailed SQLStore.GetByID
       SQLStore.db SQLStore.NewSQLStore Table.store
       mbind mret State_bind State_ret SQLStore.time_Now
       SQLStore.db_ExecContext SQLStore.db_QueryRowScan
       Table.handle ExecContext QueryRowScan Table.exec Table.select
       Table.write Table.accepts Table.with_rows negb
       query style args backend ticks sent SQLStore.string_ptr
       Table.dialect Table.reachable Table.rows Table.served fst snd].

Local Ltac run_table_in H :=
  cbv [SQLStore.InsertCreated SQLStore.MarkEnqueued SQLStore.MarkStarted
       SQLStore.MarkCompleted SQLStore.MarkFailed SQLStore.GetByID
       SQLStore.db SQLStore.NewSQLStore Table.store
       mbind mret State_bind State_ret SQLStore.time_Now
       SQLStore.db_ExecContext SQLStore.db_QueryRowScan
       Table.handle ExecContext QueryRowScan Table.exec Table.select
       Table.write Table.accepts Table.with_rows negb
       query style args backend ticks sent SQLStore.string_ptr
       Table.dialect Table.reachable Table.rows Table.served fst snd] in H.

(** What a stored row is read back as: the nullable columns become nil
    pointers when NULL, and a NULL enqueued_at becomes the zero time. *)
Lemma fill_scan (id : string) (r : Table.Row) :
  SQLStore.fill (Table.scan id r)
  = mkTaskRecord id (Table.type r) (Table.queue r) (Table.payload_json r)
      (Table.status r) (Table.error_msg r) (Table.result_json r) (Table.created_at r)
      (default zeroTime (Table.enqueued_at r)) (Table.started_at r)
      (Table.finished_at r).
Proof.
  destruct r as [ty qu p st em rj c u ea sa fa].
  destruct em, rj, ea, sa, fa; reflexivity.
Qed.

(** A [GetByID] that returns a record has found a row under that id, and
    the record is that row read back. *)
Lemma GetByID_found (ctx : Context) (id : string) (w : Env Table.Database)
    (rec0 : TaskRecord) :
  fst (fst (SQLStore.GetByID store ctx id w)) = Some rec0 ->
  exists r, Table.rows (backend w) !! id = Some r
            /\ rec0 = SQLStore.fill (Table.scan id r).
Proof.
  destruct w as [n [dl up rows k] log].
  destruct up, dl, (rows !! id) as [r|] eqn:Hrow; run_table; rewrite ?Hrow;
    try discriminate; simpl; intros H; injection H as <-; eauto.
Qed.

(** X1. A successful [MarkStarted id t] changes what [GetByID id] returns in
    two fields only: the status becomes [in_progress], whatever it was, and
    [StartedAt] becomes [t] in UTC. *)
Theorem MarkStarted_then_GetByID (ctx ctx' : Context) (id : string) (t : Time)
    (w : Env Table.Database) (rec0 : TaskRecord) :
  fst (fst (SQLStore.GetByID store ctx' id w)) = Some rec0 ->
  fst (SQLStore.MarkStarted store ctx id t w) = None ->
  fst (SQLStore.GetByID store ctx' id (snd (SQLStore.MarkStarted store ctx id t w)))
  = (Some (mkTaskRecord (ID rec0) (Type_ rec0) (Queue rec0) (PayloadJSON rec0)
             StatusInProgress (ErrorMsg rec0) (ResultJSON rec0) (CreatedAt rec0)
             (EnqueuedAt rec0) (Some (UTC t)) (FinishedAt rec0)),
     None).
Proof.
  intros Hget. apply GetByID_found in Hget as (r & Hrow & ->).
  destruct w as [n [dl up rows k] log]. simpl in Hrow.
  destruct up, dl; run_table; try discriminate; intros _;
    rewrite lookup_alter_eq, Hrow; cbn [fmap option_fmap option_map];
    rewrite !fill_scan; reflexivity.
Qed.

(** X2. A successful [MarkCompleted id resultJSON t] changes what
    [GetByID id] returns in three fields only: the status becomes
    [completed], [FinishedAt] becomes [t] in UTC, and [ResultJSON] becomes
    the pointer given; a nil pointer erases a result stored before. *)
Theorem MarkCompleted_then_GetByID (ctx ctx' : Context) (id : string)
    (resultJSON : option string) (t : Time) (w : Env Table.Database)
    (rec0 : TaskRecord) :
  fst (fst (SQLStore.GetByID store ctx' id w)) = Some rec0 ->
  fst (SQLStore.MarkCompleted store ctx id resultJSON t w) = None ->
  fst (SQLStore.GetByID store ctx' id
         (snd (SQLStore.MarkCompleted store ctx id resultJSON t w)))
  = (Some (mkTaskRecord (ID rec0) (Type_ rec0) (Queue rec0) (PayloadJSON rec0)
             StatusCompleted (ErrorMsg rec0) resultJSON (CreatedAt rec0)
             (EnqueuedAt rec0) (StartedAt rec0) (Some (UTC t))),
     None).
Proof.
  intros Hget. apply GetByID_found in Hget as (r & Hrow & ->).
  destruct w as [n [dl up rows k] log]. simpl in Hrow.
  destruct resultJSON, up, dl; run_table; try discriminate; intros _;
    rewrite lookup_alter_eq, Hrow; cbn [fmap option_fmap option_map];
    rewrite !fill_scan; reflexivity.
Qed.

(** X3. A successful [MarkFailed id errorMsg t] changes what [GetByID id]
    returns in three fields only: the status becomes [failed], [ErrorMsg]
    the message, [FinishedAt] the time [t] in UTC; a result stored before
    stays. *)
Theorem MarkFailed_then_GetByID (ctx ctx' : Context) (id errorMsg : string)
    (t : Time) (w : Env Table.Database) (rec0 : TaskRecord) :
  fst (fst (SQLStore.GetByID store ctx' id w)) = Some rec0 ->
  fst (SQLStore.MarkFailed store ctx id errorMsg t w) = None ->
  fst (SQLStore.GetByID store ctx' id
         (snd (SQLStore.MarkFailed store ctx id errorMsg t w)))
  = (Some (mkTaskRecord (ID rec0) (Type_ rec0) (Queue rec0) (PayloadJSON rec0)
             StatusFailed (Some errorMsg) (ResultJSON rec0) (CreatedAt rec0)
             (EnqueuedAt rec0) (StartedAt rec0) (Some (UTC t))),
     None).
Proof.
  intros Hget. apply GetByID_found in Hget as (r & Hrow & ->).
  destruct w as [n [dl up rows k] log]. simpl in Hrow.
  destruct up, dl; run_table; try discriminate; intros _;
    rewrite lookup_alter_eq, Hrow; cbn [fmap option_fmap option_map];
    rewrite !fill_scan; reflexivity.
Qed.

(** [MarkEnqueued] likewise changes the status, the queue and [EnqueuedAt]
    and nothing else. *)
Lemma MarkEnqueued_rest (ctx ctx' : Context) (id q : string)
    (t : Time) (w : Env Table.Database) (rec0 : TaskRecord) :
  fst (fst (SQLStore.GetByID store ctx' id w)) = Some rec0 ->
  fst (SQLStore.MarkEnqueued store ctx id q t w) = None ->
  fst (SQLStore.GetByID store ctx' id
         (snd (SQLStore.MarkEnqueued store ctx id q t w)))
  = (Some (mkTaskRecord (ID rec0) (Type_ rec0) q (PayloadJSON rec0)
             StatusCreated (ErrorMsg rec0) (ResultJSON rec0) (CreatedAt rec0)
             (UTC t) (StartedAt rec0) (FinishedAt rec0)),
     None).
Proof.
  intros Hget. apply GetByID_found in Hget as (r & Hrow & ->).
  destruct w as [n [dl up rows k] log]. simpl in Hrow.
  destruct up, dl; run_table; try discriminate; intros _;
    rewrite lookup_alter_eq, Hrow; cbn [fmap option_fmap option_map];
    rewrite !fill_scan; reflexivity.
Qed.

(** X4. None of the five writes touches the row of another id, whether it
    succeeds or fails. *)
Theorem writes_leave_other_rows (ctx : Context) (id j : string)
    (w : Env Table.Database) :
  j <> id ->
  (forall rec, ID rec = id ->
     Table.rows (backend (snd (SQLStore.InsertCreated clock store ctx rec w))) !! j
     = Table.rows (backend w) !! j)
  /\ (forall q t,
     Table.rows (backend (snd (SQLStore.MarkEnqueued store ctx id q t w))) !! j
     = Table.rows (backend w) !! j)
  /\ (forall t,
     Table.rows (backend (snd (SQLStore.MarkStarted store ctx id t w))) !! j
     = Table.rows (backend w) !! j)
  /\ (forall res t,
     Table.rows (backend (snd (SQLStore.MarkCompleted store ctx id res t w))) !! j
     = Table.rows (backend w) !! j)
  /\ (forall msg t,
     Table.rows (backend (snd (SQLStore.MarkFailed store ctx id msg t w))) !! j
     = Table.rows (backend w) !! j).
Proof.
  intros Hne. destruct w as [n [dl up rows k] log].
  repeat split; intros.
  - subst id. destruct up, dl, (rows !! ID rec) eqn:Hrow; run_table; rewrite ?Hrow;
      try reflexivity; apply lookup_insert_ne; congruence.
  - destruct up, dl; run_table; try reflexivity; apply lookup_alter_ne; congruence.
  - destruct up, dl; run_table; try reflexivity; apply lookup_alter_ne; congruence.
  - destruct res, up, dl; run_table; try reflexivity; apply lookup_alter_ne; congruence.
  - destruct up, dl; run_table; try reflexivity; apply lookup_alter_ne; congruence.
Qed.

(** X5. [InsertCreated] of an id that already has a row fails and leaves
    every row as it was: the existing record is neither replaced nor
    merged. *)
Theorem InsertCreated_existing_id_fails (ctx : Context) (rec : TaskRecord)
    (w : Env Table.Database) :
  is_Some (Table.rows (backend w) !! ID rec) ->
  fst (SQLStore.InsertCreated clock store ctx rec w) <> None
  /\ Table.rows (backend (snd (SQLStore.InsertCreated clock store ctx rec w)))
     = Table.rows (backend w).
Proof.
  intros [r Hrow]. destruct w as [n [dl up rows k] log]. simpl in Hrow.
  destruct up, dl; run_table; rewrite ?Hrow; split; (discriminate || reflexivity).
Qed.

(** X6. The record read back after a successful [InsertCreated rec] has no
    error message, no result, no start and no finish time, the zero
    [EnqueuedAt], and as [CreatedAt] the clock reading of the call, whatever
    [rec] held in those fields. *)
Theorem InsertCreated_then_GetByID_rest (ctx ctx' : Context) (rec : TaskRecord)
    (w : Env Table.Database) :
  fst (SQLStore.InsertCreated clock store ctx rec w) = None ->
  let w' := snd (SQLStore.InsertCreated clock store ctx rec w) in
  exists got,
    fst (SQLStore.GetByID store ctx' (ID rec) w') = (Some got, None)
    /\ ErrorMsg got = None /\ ResultJSON got = None
    /\ StartedAt got = None /\ FinishedAt got = None
    /\ EnqueuedAt got = zeroTime
    /\ CreatedAt got = UTC (clock (pred (ticks w'))).
Proof.
  destruct w as [n [dl up rows k] log].
  destruct up, dl, (rows !! ID rec) eqn:Hrow; run_table; rewrite ?Hrow;
    try discriminate; intros _; run_table; rewrite lookup_insert_eq;
    eexists; (split; [reflexivity|]); repeat split.
Qed.

(** X7. [GetByID] of an id without a row returns a nil record and a
    non-nil error, and leaves the database as it was. *)
Theorem GetByID_absent (ctx : Context) (id : string) (w : Env Table.Database) :
  Table.rows (backend w) !! id = None ->
  exists err,
    fst (SQLStore.GetByID store ctx id w) = (None, Some err)
    /\ backend (snd (SQLStore.GetByID store ctx id w)) = backend w.
Proof.
  destruct w as [n [dl up rows k] log]. simpl. intros Hrow.
  destruct up, dl; run_table; rewrite ?Hrow; eexists; split; reflexivity.
Qed.

(** X8. Which error that is, on a reachable database: the second attempt's.
    An engine that parses [$n] answers it with [sql.ErrNoRows]; an engine
    that parses [?] only has answered the first attempt with
    [sql.ErrNoRows], and what the caller gets is the syntax error of the
    retry. *)
Theorem GetByID_absent_error (ctx : Context) (id : string) (w : Env Table.Database) :
  Table.reachable (backend w) = true ->
  Table.rows (backend w) !! id = None ->
  snd (fst (SQLStore.GetByID store ctx id w))
  = Some (if Table.accepts (Table.dialect (backend w)) Numbered
          then Table.ErrNoRows else Table.errSyntax).
Proof.
  destruct w as [n [dl up rows k] log]. simpl. intros -> Hrow.
  destruct dl; run_table; rewrite ?Hrow; reflexivity.
Qed.

End ReadBack.


(** ** What SQLStore sends, over any database handle *)

Section WhatIsSent.

Context {D : Type}.
Variable clock : nat -> Time.

Local Ltac run_state :=
  repeat (progress (cbv [mbind mret State_bind State_ret SQLStore.time_Now
                          SQLStore.db_ExecContext SQLStore.db_QueryRowScan
                          SQLStore.db]; simpl)).

Local Ltac one_or_two h ctx w :=
  run_state;
  match goal with
  | |- context [ExecContext h ctx ?st (backend w)] =>
      destruct (ExecContext h ctx st (backend w)) as [[?e|] ?d]; run_state;
      [ match goal with
        | |- context [ExecContext h ctx ?st2 ?d1] =>
            destruct (ExecContext h ctx st2 d1) as [?e ?d]; run_state
        end
      | ]
  | |- context [QueryRowScan h ctx ?st (backend w)] =>
      destruct (QueryRowScan h ctx st (backend w)) as [[?c|?e] ?d]; run_state;
      [ | match goal with
          | |- context [QueryRowScan h ctx ?st2 ?d1] =>
              destruct (QueryRowScan h ctx st2 d1) as [[?c|?e] ?d]; run_state
          end ]
  end.

Local Ltac appended_list :=
  match goal with
  | |- Sent.appended _ _ _ =>
      unfold Sent.appended; simpl;
      first [ exists []; split; [symmetry; apply app_nil_r | constructor]
            | eexists; split; [reflexivity|]; repeat constructor
            | eexists; split; [rewrite <- app_assoc; reflexivity|]; repeat constructor ]
  end.

(** X9. Every statement any operation sends carries exactly as many
    arguments as its text has placeholders of its style. *)
Theorem arguments_match_placeholders (s : SQLStore.SQLStore (D := D)) (ctx : Context)
    (w : Env D) :
  let P st := Sent.fits_text st = true in
  (forall rec, Sent.appended P w (SQLStore.InsertCreated clock s ctx rec w))
  /\ (forall id q t, Sent.appended P w (SQLStore.MarkEnqueued s ctx id q t w))
  /\ (forall id t, Sent.appended P w (SQLStore.MarkStarted s ctx id t w))
  /\ (forall id res t, Sent.appended P w (SQLStore.MarkCompleted s ctx id res t w))
  /\ (forall id msg t, Sent.appended P w (SQLStore.MarkFailed s ctx id msg t w))
  /\ (forall id, Sent.appended P w (SQLStore.GetByID s ctx id w)).
Proof.
  destruct s as [[h|]]; cbv zeta; repeat split; intros;
    [ unfold SQLStore.InsertCreated | unfold SQLStore.MarkEnqueued
    | unfold SQLStore.MarkStarted | unfold SQLStore.MarkCompleted
    | unfold SQLStore.MarkFailed | unfold SQLStore.GetByID
    | unfold SQLStore.InsertCreated | unfold SQLStore.MarkEnqueued
    | unfold SQLStore.MarkStarted | unfold SQLStore.MarkCompleted
    | unfold SQLStore.MarkFailed | unfold SQLStore.GetByID ];
    try (one_or_two h ctx w); run_state; appended_list.
Qed.

(** X10. Every time any operation sends as an argument is in UTC, whatever
    the location of the time the caller passed. *)
Theorem times_sent_in_UTC (s : SQLStore.SQLStore (D := D)) (ctx : Context)
    (w : Env D) :
  let P st := Sent.utc_only st = true in
  (forall rec, Sent.appended P w (SQLStore.InsertCreated clock s ctx rec w))
  /\ (forall id q t, Sent.appended P w (SQLStore.MarkEnqueued s ctx id q t w))
  /\ (forall id t, Sent.appended P w (SQLStore.MarkStarted s ctx id t w))
  /\ (forall id res t, Sent.appended P w (SQLStore.MarkCompleted s ctx id res t w))
  /\ (forall id msg t, Sent.appended P w (SQLStore.MarkFailed s ctx id msg t w))
  /\ (forall id, Sent.appended P w (SQLStore.GetByID s ctx id w)).
Proof.
  destruct s as [[h|]]; cbv zeta; repeat split; intros; try (destruct res);
    [ unfold SQLStore.InsertCreated | unfold SQLStore.MarkEnqueued
    | unfold SQLStore.MarkStarted | unfold SQLStore.MarkCompleted
    | unfold SQLStore.MarkCompleted | unfold SQLStore.MarkFailed
    | unfold SQLStore.GetByID
    | unfold SQLStore.InsertCreated | unfold SQLStore.MarkEnqueued
    | unfold SQLStore.MarkStarted | unfold SQLStore.MarkCompleted
    | unfold SQLStore.MarkCompleted | unfold SQLStore.MarkFailed
    | unfold SQLStore.GetByID ];
    try (one_or_two h ctx w); run_state; appended_list.
Qed.

(** X11. On a handle whose every statement fails, each operation returns a
    non-nil error, and has sent exactly two statements to get there. *)
Theorem refused_twice (h : DB D) (ctx : Context) (w : Env D) :
  Sent.down h ->
  let s := SQLStore.NewSQLStore (Some h) in
  let failed (r : option error * Env D) :=
    fst r <> None /\ length (sent (snd r)) = 2 + length (sent w) in
  (forall rec, failed (SQLStore.InsertCreated clock s ctx rec w))
  /\ (forall id q t, failed (SQLStore.MarkEnqueued s ctx id q t w))
  /\ (forall id t, failed (SQLStore.MarkStarted s ctx id t w))
  /\ (forall id res t, failed (SQLStore.MarkCompleted s ctx id res t w))
  /\ (forall id msg t, failed (SQLStore.MarkFailed s ctx id msg t w))
  /\ (forall id,
        let r := SQLStore.GetByID s ctx id w in
        fst (fst r) = None /\ snd (fst r) <> None
        /\ length (sent (snd r)) = 2 + length (sent w)).
Proof.
  intros [Hexec Hquery]. cbv zeta.
  assert (Hlen : forall (l : list Stmt) a b, length ((l ++ [a]) ++ [b]) = 2 + length l)
    by (intros; rewrite !length_app; simpl; lia).
  repeat split; intros;
    [ unfold SQLStore.InsertCreated | unfold SQLStore.InsertCreated
    | unfold SQLStore.MarkEnqueued | unfold SQLStore.MarkEnqueued
    | unfold SQLStore.MarkStarted | unfold SQLStore.MarkStarted
    | unfold SQLStore.MarkCompleted | unfold SQLStore.MarkCompleted
    | unfold SQLStore.MarkFailed | unfold SQLStore.MarkFailed
    | unfold SQLStore.GetByID | unfold SQLStore.GetByID | unfold SQLStore.GetByID ];
    run_state;
    match goal with
    | |- context [ExecContext h ctx ?st (backend w)] =>
        pose proof (Hexec ctx st (backend w)) as H1;
        destruct (ExecContext h ctx st (backend w)) as [[e1|] d1];
        [| exfalso; apply H1; reflexivity]; run_state;
        match goal with
        | |- context [ExecContext h ctx ?st2 d1] =>
            pose proof (Hexec ctx st2 d1) as H2;
            destruct (ExecContext h ctx st2 d1) as [[e2|] d2];
            [| exfalso; apply H2; reflexivity]; run_state
        end
    | |- context [QueryRowScan h ctx ?st (backend w)] =>
        destruct (Hquery ctx st (backend w)) as [e1 H1];
        destruct (QueryRowScan h ctx st (backend w)) as [r1 d1];
        simpl in H1; subst r1; run_state;
        match goal with
        | |- context [QueryRowScan h ctx ?st2 d1] =>
            destruct (Hquery ctx st2 d1) as [e2 H2];
            destruct (QueryRowScan h ctx st2 d1) as [r2 d2];
            simpl in H2; subst r2; run_state
        end
    end;
    solve [discriminate | reflexivity | apply Hlen].
Qed.

End WhatIsSent.

(** ** Every path through Enqueue and the middleware *)

Section EveryPath.

Context {S : Type}.
Variable time_Now : State S Time.
Context {Payload : Type}.
Variable json_Marshal : Payload -> string + error.

Local Ltac run_calls :=
  cbv [mbind mret State_bind State_ret call quiet outside calls fst snd
       client store queue pstore].


(** X13. Without a Store, or for a context that carries no task id, the
    middleware is the handler: same outcome, same state left behind, the
    handler as the only call, and the clock is not read. *)
Theorem middleware_transparent (p : Processor) (next : asynq.Handler S)
    (ctx : Context) (t : asynq.Task) (w : World S) :
  pstore p = None \/ asynq.GetTaskID ctx = None ->
  asynq.ProcessTask (lifecycleMiddleware time_Now p next) ctx t w
  = (fst (asynq.ProcessTask next ctx t (outside w)),
     mkWorld (snd (asynq.ProcessTask next ctx t (outside w)))
       (calls w ++ [CallProcessTask ctx t])).
Proof.
  destruct w as [s0 log]. destruct p as [cfg [st|]]; simpl pstore.
  - intros [H|H]; [discriminate|].
    unfold lifecycleMiddleware. cbn [asynq.ProcessTask]. run_calls. rewrite H.
    destruct (asynq.ProcessTask next ctx t s0) as [e s1]. reflexivity.
  - intros _. unfold lifecycleMiddleware. cbn [asynq.ProcessTask]. run_calls.
    destruct (asynq.ProcessTask next ctx t s0) as [e s1]. reflexivity.
Qed.

(** X14. A client built by [NewClient] has a queue handle and a queue name
    that is never empty: the configured one, or [default] when none is
    configured. *)
Theorem NewClient_queue_not_empty (cl : asynq.Client S) (st : option (Store S))
    (opts : ClientOptions) :
  let c := NewClient cl st opts in
  client c = Some cl
  /\ store c = st
  /\ String.eqb (queue c) "" = false
  /\ queue c = (if String.eqb (Queue_ opts) "" then "default" else Queue_ opts).
Proof.
  unfold NewClient. simpl. repeat split.
  destruct (String.eqb (Queue_ opts) "") eqn:H; [reflexivity | exact H].
Qed.


(** The state a successful [Enqueue] on a client with a Store leaves
    outside: the one its [MarkEnqueued] call leaves. *)
Lemma Enqueue_success_outside (cl : asynq.Client S) (st : Store S) (q : string)
    (ctx : Context) (taskType : string) (payload : Payload)
    (options : list asynq.Option) (w : World S)
    (bytes : string) (info : asynq.TaskInfo) (s1 : S) :
  json_Marshal payload = inl bytes ->
  asynq.EnqueueContext cl ctx (asynq.NewTask taskType bytes)
    (options ++ [asynq.Queue q]) (outside w) = (inl info, s1) ->
  let r := Enqueue time_Now json_Marshal (mkClient (Some cl) (Some st) q) ctx taskType
             payload options w in
  let s2 := snd (time_Now s1) in
  let s3 := snd (time_Now s2) in
  let rec := mkTaskRecord (asynq.ID info) taskType (asynq.Queue_ info) bytes
               StatusCreated None None (UTC (fst (time_Now s1)))
               (UTC (fst (time_Now s2))) None None in
  let s4 := snd (InsertCreated st ctx rec s3) in
  outside (snd r)
  = snd (MarkEnqueued st ctx (asynq.ID info) (asynq.Queue_ info)
           (UTC (fst (time_Now s4))) (snd (time_Now s4))).
Proof.
  destruct w as [s0 log]. simpl outside. intros Hjson Hsub. cbv zeta.
  unfold Enqueue. run_calls. rewrite Hjson, Hsub.
  destruct (time_Now s1) as [t1 s2]. destruct (time_Now s2) as [t2 s3].
  destruct (InsertCreated st ctx _ s3) as [e1 s4].
  destruct (time_Now s4) as [t3 s5].
  destruct (MarkEnqueued st ctx _ _ _ s5) as [e2 s6]. reflexivity.
Qed.


End EveryPath.

(** ** Client, Processor and SQLStore together *)

Section WiredTogether.

Variable clock : nat -> Time.
Variable engine_clock : nat -> Time.
Context {Payload : Type}.
Variable json_Marshal : Payload -> string + error.

Local Abbreviation wstore := (Wired.store clock engine_clock).

Local Ltac run_wired :=
  cbv [Wired.time_Now Wired.store Wired.client Wired.on_env Wired.on_redis
       Wired.env Wired.redis asynq.EnqueueContext outside calls
       InsertCreated MarkEnqueued MarkStarted MarkCompleted MarkFailed GetByID
       SQLStore.as_Store
       SQLStore.InsertCreated SQLStore.MarkEnqueued SQLStore.MarkStarted
       SQLStore.MarkCompleted SQLStore.MarkFailed SQLStore.GetByID
       SQLStore.db SQLStore.NewSQLStore Table.store
       mbind mret State_bind State_ret SQLStore.time_Now
       SQLStore.db_ExecContext SQLStore.db_QueryRowScan
       Table.handle ExecContext QueryRowScan Table.exec Table.select
       Table.write Table.accepts Table.with_rows negb
       query style args backend ticks sent SQLStore.string_ptr
       ID Type_ Queue PayloadJSON
       Table.dialect Table.reachable Table.rows Table.served fst snd].

(** X16. With an SQLStore on a reachable database as the client's Store: a
    successful [Enqueue] whose acknowledged id has no row yet leaves a
    record that [GetByID] returns, with the acknowledged id and queue, the
    task type, the serialized payload, the status [created], and as
    [EnqueuedAt] the last clock reading of the call. *)
Theorem Enqueue_then_GetByID (q : string) (ctx ctx' : Context) (taskType : string)
    (payload : Payload) (options : list asynq.Option) (w : World Wired.Sys)
    (info : asynq.TaskInfo) :
  let c := mkClient (Some Wired.client) (Some wstore) q in
  let r := Enqueue (Wired.time_Now clock) json_Marshal c ctx taskType payload options w in
  fst (fst r) = Some info ->
  Table.reachable (backend (Wired.env (outside w))) = true ->
  Table.rows (backend (Wired.env (outside w))) !! asynq.ID info = None ->
  exists got,
    fst (GetByID wstore ctx' (asynq.ID info) (outside (snd r))) = (Some got, None)
    /\ ID got = asynq.ID info
    /\ Type_ got = taskType
    /\ Queue got = asynq.Queue_ info
    /\ json_Marshal payload = inl (PayloadJSON got)
    /\ Status_ got = StatusCreated
    /\ EnqueuedAt got = UTC (clock (pred (ticks (Wired.env (outside (snd r)))))).
Proof.
  cbv zeta. intros Hinfo Hup Hrow.
  apply Enqueue_acknowledged in Hinfo as (cl & bytes & s1 & Hcl & Hjson & Hsub).
  simpl in Hcl. injection Hcl as <-. simpl queue in Hsub.
  rewrite (Enqueue_success_outside _ _ _ _ _ _ _ _ _ _ _ _ _ Hjson Hsub).
  rewrite Hjson.
  destruct w as [[[n [dl up rows k] log] red] cs]. simpl in Hup, Hrow. subst up.
  revert Hsub. run_wired.
  destruct (Broker.EnqueueContext ctx _ _ red) as [r' red'].
  intros H. injection H as -> <-.
  destruct dl; run_wired; rewrite ?Hrow; rewrite lookup_alter_eq, lookup_insert_eq;
    eexists; (split; [reflexivity|]); repeat split.
Qed.

(** X17. The same, when the acknowledged id already has a row (a task id
    chosen by the caller and used before): the insert fails silently, and
    [MarkEnqueued] rewrites the old record.  It comes back with the status
    [created], the new queue and [EnqueuedAt], and everything else as the old
    row had it: the old type and payload, not the ones just submitted, and
    the old error, result, start and finish. *)
Theorem Enqueue_reused_id (q : string) (ctx ctx' : Context) (taskType : string)
    (payload : Payload) (options : list asynq.Option) (w : World Wired.Sys)
    (info : asynq.TaskInfo) (old : Table.Row) :
  let c := mkClient (Some Wired.client) (Some wstore) q in
  let r := Enqueue (Wired.time_Now clock) json_Marshal c ctx taskType payload options w in
  fst (fst r) = Some info ->
  Table.reachable (backend (Wired.env (outside w))) = true ->
  Table.rows (backend (Wired.env (outside w))) !! asynq.ID info = Some old ->
  fst (GetByID wstore ctx' (asynq.ID info) (outside (snd r)))
  = (Some (mkTaskRecord (asynq.ID info) (Table.type old) (asynq.Queue_ info)
             (Table.payload_json old) StatusCreated (Table.error_msg old)
             (Table.result_json old) (Table.created_at old)
             (UTC (clock (pred (ticks (Wired.env (outside (snd r)))))))
             (Table.started_at old) (Table.finished_at old)),
     None).
Proof.
  cbv zeta. intros Hinfo Hup Hrow.
  apply Enqueue_acknowledged in Hinfo as (cl & bytes & s1 & Hcl & Hjson & Hsub).
  simpl in Hcl. injection Hcl as <-. simpl queue in Hsub.
  rewrite (Enqueue_success_outside _ _ _ _ _ _ _ _ _ _ _ _ _ Hjson Hsub).
  destruct w as [[[n [dl up rows k] log] red] cs]. simpl in Hup, Hrow. subst up.
  revert Hsub. run_wired.
  destruct (Broker.EnqueueContext ctx _ _ red) as [r' red'].
  intros H. injection H as -> <-.
  destruct dl; run_wired; rewrite ?Hrow; rewrite lookup_alter_eq, Hrow;
    cbn [fmap option_fmap option_map]; rewrite fill_scan; reflexivity.
Qed.


(** X19. Whatever options the caller passes, a queue option among them
    included, a submission through [Enqueue] that the queue library
    acknowledges is on the queue configured in the client. *)
Theorem Enqueue_queue_is_configured (st : option (Store Wired.Sys)) (q : string)
    (ctx : Context) (taskType : string) (payload : Payload)
    (options : list asynq.Option) (w : World Wired.Sys) (info : asynq.TaskInfo) :
  fst (fst (Enqueue (Wired.time_Now clock) json_Marshal
              (mkClient (Some Wired.client) st q) ctx taskType payload options w))
  = Some info ->
  asynq.Queue_ info = q.
Proof.
  intros H. apply Enqueue_acknowledged in H as (cl & bytes & s1 & Hcl & _ & Hsub).
  simpl in Hcl. injection Hcl as <-. simpl queue in Hsub.
  revert Hsub. cbv [Wired.client asynq.EnqueueContext Wired.on_redis].
  unfold Broker.EnqueueContext.
  destruct (Broker.composeOptions _) as [o|e] eqn:Hopts; [|discriminate].
  apply composeOptionsFrom_queue_last in Hopts.
  destruct (Broker.taken _ _); [discriminate|].
  intros Hsub. injection Hsub as <- _. exact Hopts.
Qed.

End WiredTogether.

(** ** The further properties with hypotheses, at concrete inputs *)

Lemma MarkStarted_then_GetByID_witness :
  let st := Table.store Sample.engine_clock in
  let w := snd (SQLStore.InsertCreated Sample.clock st Sample.ctx0 Sample.rec1
                  (Sample.env Table.Postgres)) in
  fst (SQLStore.GetByID st Sample.ctx0 "task-1"
         (snd (SQLStore.MarkStarted st Sample.ctx1 "task-1" (mkTime 9 LocalLoc) w)))
  = (Some (mkTaskRecord "task-1" "email:deliver" "default" "{}" StatusInProgress
             None None (mkTime 1 UTCLoc) zeroTime (Some (mkTime 9 UTCLoc)) None),
     None).
Proof.
  intros st w.
  refine (MarkStarted_then_GetByID Sample.engine_clock Sample.ctx1 Sample.ctx0 "task-1"
            (mkTime 9 LocalLoc) w
            (mkTaskRecord "task-1" "email:deliver" "default" "{}" StatusCreated
               None None (mkTime 1 UTCLoc) zeroTime None None) _ _);
    vm_compute; reflexivity.
Defined.

Lemma MarkCompleted_then_GetByID_witness :
  let st := Table.store Sample.engine_clock in
  let w0 := snd (SQLStore.InsertCreated Sample.clock st Sample.ctx0 Sample.rec1
                   (Sample.env Table.SQLite)) in
  let w := snd (SQLStore.MarkCompleted st Sample.ctx0 "task-1" (Some "{ok:true}")
                  (mkTime 8 LocalLoc) w0) in
  fst (SQLStore.GetByID st Sample.ctx0 "task-1"
         (snd (SQLStore.MarkCompleted st Sample.ctx0 "task-1" None (mkTime 9 LocalLoc) w)))
  = (Some (mkTaskRecord "task-1" "email:deliver" "default" "{}" StatusCompleted
             None None (mkTime 0 UTCLoc) zeroTime None (Some (mkTime 9 UTCLoc))),
     None).
Proof.
  intros st w0 w.
  refine (MarkCompleted_then_GetByID Sample.engine_clock Sample.ctx0 Sample.ctx0 "task-1"
            None (mkTime 9 LocalLoc) w
            (mkTaskRecord "task-1" "email:deliver" "default" "{}" StatusCompleted
               None (Some "{ok:true}") (mkTime 0 UTCLoc) zeroTime None
               (Some (mkTime 8 UTCLoc))) _ _);
    vm_compute; reflexivity.
Defined.

Lemma MarkFailed_then_GetByID_witness :
  let st := Table.store Sample.engine_clock in
  let w := snd (SQLStore.InsertCreated Sample.clock st Sample.ctx0 Sample.rec1
                  (Sample.env Table.MySQL)) in
  fst (SQLStore.GetByID st Sample.ctx0 "task-1"
         (snd (SQLStore.MarkFailed st Sample.ctx0 "task-1" "boom" (mkTime 9 LocalLoc) w)))
  = (Some (mkTaskRecord "task-1" "email:deliver" "default" "{}" StatusFailed
             (Some "boom") None (mkTime 0 UTCLoc) zeroTime None
             (Some (mkTime 9 UTCLoc))),
     None).
Proof.
  intros st w.
  refine (MarkFailed_then_GetByID Sample.engine_clock Sample.ctx0 Sample.ctx0 "task-1"
            "boom" (mkTime 9 LocalLoc) w
            (mkTaskRecord "task-1" "email:deliver" "default" "{}" StatusCreated
               None None (mkTime 0 UTCLoc) zeroTime None None) _ _);
    vm_compute; reflexivity.
Defined.

Lemma writes_leave_other_rows_witness :
  let st := Table.store Sample.engine_clock in
  let w := snd (SQLStore.InsertCreated Sample.clock st Sample.ctx0 Sample.rec1
                  (Sample.env Table.SQLite)) in
  Table.rows (backend (snd (SQLStore.MarkFailed st Sample.ctx0 "task-2" "boom"
                              (mkTime 9 LocalLoc) w))) !! "task-1"
  = Table.rows (backend w) !! "task-1".
Proof.
  intros st w.
  refine (proj2 (proj2 (proj2 (proj2
            (writes_leave_other_rows Sample.clock Sample.engine_clock Sample.ctx0
               "task-2" "task-1" w _)))) "boom" (mkTime 9 LocalLoc)).
  discriminate.
Defined.

Lemma InsertCreated_existing_id_fails_witness :
  let st := Table.store Sample.engine_clock in
  let w := snd (SQLStore.InsertCreated Sample.clock st Sample.ctx0 Sample.rec1
                  (Sample.env Table.SQLite)) in
  fst (SQLStore.InsertCreated Sample.clock st Sample.ctx0 Sample.rec1 w) <> None
  /\ Table.rows (backend (snd (SQLStore.InsertCreated Sample.clock st Sample.ctx0
                                 Sample.rec1 w)))
     = Table.rows (backend w).
Proof.
  intros st w.
  refine (InsertCreated_existing_id_fails Sample.clock Sample.engine_clock Sample.ctx0
            Sample.rec1 w _).
  exists (Table.mkRow "email:deliver" "default" "{}" "created" None None
            (mkTime 0 UTCLoc) None None None None).
  vm_compute. reflexivity.
Defined.

Lemma InsertCreated_then_GetByID_rest_witness :
  let st := Table.store Sample.engine_clock in
  let w' := snd (SQLStore.InsertCreated Sample.clock st Sample.ctx0 Sample.rec1
                   (Sample.env Table.Postgres)) in
  ErrorMsg Sample.rec1 = Some "old"
  /\ exists got,
      fst (SQLStore.GetByID st Sample.ctx0 "task-1" w') = (Some got, None)
      /\ ErrorMsg got = None /\ ResultJSON got = None
      /\ StartedAt got = None /\ FinishedAt got = None
      /\ EnqueuedAt got = zeroTime
      /\ CreatedAt got = UTC (Sample.clock (pred (ticks w'))).
Proof.
  intros st w'. split; [reflexivity|].
  refine (InsertCreated_then_GetByID_rest Sample.clock Sample.engine_clock Sample.ctx0
            Sample.ctx0 Sample.rec1 (Sample.env Table.Postgres) _).
  vm_compute. reflexivity.
Defined.

Lemma GetByID_absent_witness :
  exists err,
    fst (SQLStore.GetByID (Table.store Sample.engine_clock) Sample.ctx0 "missing"
           (Sample.env Table.SQLite)) = (None, Some err)
    /\ backend (snd (SQLStore.GetByID (Table.store Sample.engine_clock) Sample.ctx0
                       "missing" (Sample.env Table.SQLite)))
       = backend (Sample.env Table.SQLite).
Proof.
  refine (GetByID_absent Sample.engine_clock Sample.ctx0 "missing"
            (Sample.env Table.SQLite) _).
  reflexivity.
Defined.

Lemma GetByID_absent_error_witness :
  snd (fst (SQLStore.GetByID (Table.store Sample.engine_clock) Sample.ctx0 "missing"
              (Sample.env Table.MySQL)))
  = Some Table.errSyntax
  /\ snd (fst (SQLStore.GetByID (Table.store Sample.engine_clock) Sample.ctx0 "missing"
                 (Sample.env Table.Postgres)))
     = Some Table.ErrNoRows.
Proof.
  split.
  - refine (GetByID_absent_error Sample.engine_clock Sample.ctx0 "missing"
              (Sample.env Table.MySQL) _ _); reflexivity.
  - refine (GetByID_absent_error Sample.engine_clock Sample.ctx0 "missing"
              (Sample.env Table.Postgres) _ _); reflexivity.
Defined.

Lemma refused_twice_witness :
  Sent.down Sent.refusing
  /\ fst (SQLStore.MarkStarted (SQLStore.NewSQLStore (Some Sent.refusing)) Sample.ctx0
            "task-1" (mkTime 9 LocalLoc) (mkEnv 0 tt [])) <> None
  /\ length (sent (snd (SQLStore.MarkStarted (SQLStore.NewSQLStore (Some Sent.refusing))
                          Sample.ctx0 "task-1" (mkTime 9 LocalLoc) (mkEnv 0 tt []))))
     = 2.
Proof.
  assert (Hdown : Sent.down Sent.refusing).
  { split; intros; simpl; [discriminate | eexists; reflexivity]. }
  split; [exact Hdown|].
  refine (proj1 (proj2 (proj2 (refused_twice Sample.clock Sent.refusing Sample.ctx0
                                 (mkEnv 0 tt []) Hdown))) "task-1" (mkTime 9 LocalLoc)).
Defined.

Lemma middleware_transparent_witness :
  asynq.ProcessTask
    (lifecycleMiddleware Sample.time_Now
       (NewProcessor (Some Sample.failingStore) (mkProcessorConfig 5 None))
       Sample.failHandler)
    Sample.ctx0 (asynq.NewTask "it:fail" "2") Sample.start
  = (Some (errors_New "boom"),
     mkWorld (outside Sample.start) [CallProcessTask Sample.ctx0 (asynq.NewTask "it:fail" "2")]).
Proof.
  refine (middleware_transparent Sample.time_Now
            (NewProcessor (Some Sample.failingStore) (mkProcessorConfig 5 None))
            Sample.failHandler Sample.ctx0 (asynq.NewTask "it:fail" "2") Sample.start _).
  right. reflexivity.
Defined.

Lemma Enqueue_then_GetByID_witness :
  let c := mkClient (Some Wired.client)
             (Some (Wired.store Sample.clock Sample.engine_clock)) "low" in
  let r := Enqueue (Wired.time_Now Sample.clock) Sample.json_Marshal c Sample.ctx0
             "email:deliver" (Sample.Num 3) [asynq.MaxRetry 2]
             (Wired.fresh Table.Postgres) in
  exists got,
    fst (GetByID (Wired.store Sample.clock Sample.engine_clock) Sample.ctx0 "task-0"
           (outside (snd r))) = (Some got, None)
    /\ ID got = "task-0"
    /\ Type_ got = "email:deliver"
    /\ Queue got = "low"
    /\ Sample.json_Marshal (Sample.Num 3) = inl (PayloadJSON got)
    /\ Status_ got = StatusCreated
    /\ EnqueuedAt got = UTC (Sample.clock (pred (ticks (Wired.env (outside (snd r)))))).
Proof.
  intros c r.
  refine (Enqueue_then_GetByID Sample.clock Sample.engine_clock Sample.json_Marshal
            "low" Sample.ctx0 Sample.ctx0 "email:deliver" (Sample.Num 3)
            [asynq.MaxRetry 2] (Wired.fresh Table.Postgres)
            (asynq.mkTaskInfo "task-0" "low" "email:deliver" "3" 2) _ _ _);
    vm_compute; reflexivity.
Defined.

Lemma Enqueue_reused_id_witness :
  let c := mkClient (Some Wired.client)
             (Some (Wired.store Sample.clock Sample.engine_clock)) "low" in
  let r := Enqueue (Wired.time_Now Sample.clock) Sample.json_Marshal c Sample.ctx0
             "report:build" (Sample.Num 3) [asynq.TaskID "task-1"]
             (Wired.used Table.MySQL) in
  fst (fst r) = Some (asynq.mkTaskInfo "task-1" "low" "report:build" "3" 25)
  /\ fst (GetByID (Wired.store Sample.clock Sample.engine_clock) Sample.ctx0 "task-1"
            (outside (snd r)))
     = (Some (mkTaskRecord "task-1" "email:deliver" "low" "{}" StatusCreated
                (Some "boom") None (mkTime 0 UTCLoc) (mkTime 5 UTCLoc) None
                (Some (mkTime 50 UTCLoc))),
        None).
Proof.
  intros c r. split; [vm_compute; reflexivity|].
  refine (Enqueue_reused_id Sample.clock Sample.engine_clock Sample.json_Marshal
            "low" Sample.ctx0 Sample.ctx0 "report:build" (Sample.Num 3)
            [asynq.TaskID "task-1"] (Wired.used Table.MySQL)
            (asynq.mkTaskInfo "task-1" "low" "report:build" "3" 25)
            (Table.mkRow "email:deliver" "default" "{}" "failed" (Some "boom") None
               (mkTime 0 UTCLoc) (Some (mkTime 1001 UTCLoc)) None None
               (Some (mkTime 50 UTCLoc))) _ _ _);
    vm_compute; reflexivity.
Defined.


Lemma Enqueue_queue_is_configured_witness :
  let r := Enqueue (Wired.time_Now Sample.clock) Sample.json_Marshal
             (mkClient (Some Wired.client) None "default") Sample.ctx0 "email:deliver"
             (Sample.Num 1) [asynq.Queue "critical"; asynq.MaxRetry 3]
             (Wired.fresh Table.SQLite) in
  fst (fst r) = Some (asynq.mkTaskInfo "task-0" "default" "email:deliver" "1" 3)
  /\ asynq.Queue_ (asynq.mkTaskInfo "task-0" "default" "email:deliver" "1" 3) = "default".
Proof.
  intros r.
  assert (H : fst (fst r) = Some (asynq.mkTaskInfo "task-0" "default" "email:deliver" "1" 3))
    by (vm_compute; reflexivity).
  split; [exact H|].
  exact (Enqueue_queue_is_configured Sample.clock Sample.json_Marshal None "default"
           Sample.ctx0 "email:deliver" (Sample.Num 1)
           [asynq.Queue "critical"; asynq.MaxRetry 3] (Wired.fresh Table.SQLite)
           (asynq.mkTaskInfo "task-0" "default" "email:deliver" "1" 3) H).
Defined.
